(** * Job application assistant: prompt pipelines and schema validation

    A shallow embedding of [project1_job_application_assistant.py].

    The program is three single-shot pipelines, each of the shape
    [prompt | llm | output_parser], and a driver [main] that runs them in
    sequence.  Everything the file itself decides is modelled concretely:
    the two pydantic schemas, the three prompt templates and the values
    bound to their variables, the temperature each [Ollama] client is built
    with, the composition of the chains and the control flow of [main].

    What the file delegates to its libraries and to the model host is a
    parameter of the development:
    - the text generation service behind [Ollama.invoke] ([Host]);
    - the JSON decoder of [PydanticOutputParser], the lax coercions of
      strings and floats to [int], the text of the format instructions and
      the text of an exception ([Library]).
    The part of pydantic's validation that does not depend on such details
    (required fields, the accepted input type of every annotation, errors
    of all fields reported together) is written out.  *)

From Stdlib Require Import String Ascii List ZArith QArith Lia Bool.
From Stdlib Require Import DecimalString.
From Stdlib Require Import Floats.SpecFloat.
Import ListNotations.
Local Close Scope Q_scope.
Local Open Scope list_scope.
Local Open Scope string_scope.

Set Implicit Arguments.
Set Warnings "-register-all".

(** ** Python values decoded from JSON *)

(** What [json.loads] builds: [None], [bool], [int], [float], [str], [list]
    and [dict].  A [dict] is kept as its items in insertion order; its keys
    are looked up from the front. *)
Inductive json : Type :=
| JNull
| JBool (b : bool)
| JInt (z : Z)
| JFloat (f : spec_float)
| JStr (s : string)
| JList (items : list json)
| JDict (items : list (string * json)).

Fixpoint dict_get {A : Type} (key : string) (d : list (string * A)) : option A :=
  match d with
  | [] => None
  | (k, v) :: rest => if String.eqb key k then Some v else dict_get key rest
  end.

(** ** Exceptions *)

(** The [type] of one pydantic error line. *)
Inductive error_type : Type :=
| missing
| model_type
| string_type
| int_type
| int_parsing
| int_from_float
| list_type.

(** Why an output parser rejected the text of the model. *)
Inductive parse_failure : Type :=
| invalid_json
| validation_error (errors : list (string * error_type)).

(** The exceptions the program can meet.  [GenerationError] is a fault raised
    by the call to the model host; [ParseValidationError] is the
    [OutputParserException] of the output parser; [KeyError] and [ValueError]
    are what formatting a template raises on an unbound variable and on
    unbalanced braces. *)
Inductive exception : Type :=
| GenerationError (msg : string)
| ParseValidationError (cause : parse_failure)
| KeyError (name : string)
| ValueError (msg : string).

Definition result (A : Type) : Type := (exception + A)%type.

Definition Ok {A : Type} (a : A) : result A := inr a.
Definition Raise {A : Type} (e : exception) : result A := inl e.

(** ** What the libraries decide *)

Inductive annotation : Type :=
| Tstr
| Tint
| TList_str.

(** One [name: annotation = Field(..., description=...)] line of a model. *)
Record FieldInfo : Type := mkField {
  field_name : string;
  field_annotation : annotation;
  field_description : string
}.

Record ModelSchema : Type := mkSchema {
  schema_title : string;
  schema_doc : string;
  schema_fields : list FieldInfo
}.

Class Library : Type := {
  (** the decoder of the output parser: the Python value it finds in a
      text, or nothing when it finds none; it is more lenient than
      [json.loads], since it unwraps a markdown fence and completes a
      truncated value before it gives up *)
  parse_json_markdown : string -> option json;
  (** pydantic's lax coercion of a [str] to an [int] *)
  str_as_int : string -> option Z;
  (** pydantic's lax coercion of a [float] to an [int] *)
  float_as_int : spec_float -> option Z;
  (** [PydanticOutputParser.get_format_instructions] for a model *)
  get_format_instructions : ModelSchema -> string;
  (** [str(e)] *)
  exception_str : exception -> string
}.

(** ** Pydantic validation *)

Module Pydantic.

(** The outcome of validating one model: the instance, or the error lines
    of all its fields. *)
Definition validation (A : Type) : Type := (list (string * error_type) + A)%type.

Definition pure {A : Type} (a : A) : validation A := inr a.

(** Errors accumulate: a failed field does not hide the failure of a later
    one. *)
Definition ap {A B : Type} (f : validation (A -> B)) (x : validation A) : validation B :=
  match f, x with
  | inr g, inr a => inr (g a)
  | inr _, inl ex => inl ex
  | inl ef, inr _ => inl ef
  | inl ef, inl ex => inl (ef ++ ex)%list
  end.

Definition validate_str (v : json) : error_type + string :=
  match v with
  | JStr s => inr s
  | _ => inl string_type
  end.

Section Lax.
Context {L : Library}.

(** [int] in lax mode: an [int] as it is, a [bool] as 0 or 1, a [str] and
    a [float] through the library's coercions, nothing else. *)
Definition validate_int (v : json) : error_type + Z :=
  match v with
  | JInt z => inr z
  | JBool b => inr (if b then 1 else 0)%Z
  | JStr s =>
      match str_as_int s with
      | Some z => inr z
      | None => inl int_parsing
      end
  | JFloat f =>
      match float_as_int f with
      | Some z => inr z
      | None => inl int_from_float
      end
  | JNull | JList _ | JDict _ => inl int_type
  end.
End Lax.

(** Where an error line of an item points: the field and the index of the
    item, as pydantic prints them. *)
Definition item_loc (name : string) (index : nat) : string :=
  name ++ "." ++ NilZero.string_of_uint (Nat.to_uint index).

(** The items of a [List[str]] field, from the item at [index] on: every
    item is validated, and every bad one has its own line. *)
Fixpoint validate_items (name : string) (index : nat) (items : list json)
    : validation (list string) :=
  match items with
  | [] => inr []
  | v :: rest =>
      match validate_str v, validate_items name (S index) rest with
      | inr s, inr ss => inr (s :: ss)
      | inr _, inl lines => inl lines
      | inl e, inr _ => inl [(item_loc name index, e)]
      | inl e, inl lines => inl ((item_loc name index, e) :: lines)
      end
  end.

(** [List[str]]: an array, item by item; anything else is one error of the
    field itself. *)
Definition validate_list_str (name : string) (v : json) : validation (list string) :=
  match v with
  | JList items => validate_items name 0 items
  | _ => inl [(name, list_type)]
  end.

(** A required field ([Field(...)]): absent from the input it is an error,
    present it goes through the validator of its annotation. *)
Definition required {A : Type} (d : list (string * json)) (name : string)
    (validator : json -> error_type + A) : validation A :=
  match dict_get name d with
  | None => inl [(name, missing)]
  | Some v =>
      match validator v with
      | inl e => inl [(name, e)]
      | inr a => inr a
      end
  end.

(** A required [List[str]] field. *)
Definition required_list (d : list (string * json)) (name : string)
    : validation (list string) :=
  match dict_get name d with
  | None => inl [(name, missing)]
  | Some v => validate_list_str name v
  end.

End Pydantic.

Notation "f <*> x" := (Pydantic.ap f x) (at level 50, left associativity).

(** ** The two models *)

(** [class JobDetails(BaseModel)] *)
Record JobDetails : Type := mkJobDetails {
  job_title : string;
  required_skills : list string;
  experience_required : Z;
  tools : list string;
  soft_skills : list string
}.

(** [class ResumeSuggestions(BaseModel)] *)
Record ResumeSuggestions : Type := mkResumeSuggestions {
  missing_skills : list string;
  improvement_points : list string;
  overall_fit_summary : string
}.

(** What a [BaseModel] subclass gives its output parser. *)
Class BaseModel (A : Type) : Type := {
  model_schema : ModelSchema;
  model_validate : Library -> json -> Pydantic.validation A
}.

Definition JobDetails_schema : ModelSchema :=
  mkSchema "JobDetails" "Structured job details extracted from job description."
    [ mkField "job_title" Tstr "The job title";
      mkField "required_skills" TList_str "List of required technical skills";
      mkField "experience_required" Tint "Years of experience required";
      mkField "tools" TList_str "Tools and technologies mentioned";
      mkField "soft_skills" TList_str "Required soft skills" ].

Definition JobDetails_validate (L : Library) (v : json) : Pydantic.validation JobDetails :=
  match v with
  | JDict d =>
      Pydantic.pure mkJobDetails
        <*> Pydantic.required d "job_title" Pydantic.validate_str
        <*> Pydantic.required_list d "required_skills"
        <*> Pydantic.required d "experience_required" Pydantic.validate_int
        <*> Pydantic.required_list d "tools"
        <*> Pydantic.required_list d "soft_skills"
  | _ => inl [("JobDetails", model_type)]
  end.

#[export] Instance JobDetails_model : BaseModel JobDetails := {
  model_schema := JobDetails_schema;
  model_validate := JobDetails_validate
}.

Definition ResumeSuggestions_schema : ModelSchema :=
  mkSchema "ResumeSuggestions" "Resume improvement suggestions based on job requirements."
    [ mkField "missing_skills" TList_str "Skills to add to resume";
      mkField "improvement_points" TList_str "Specific improvements to resume";
      mkField "overall_fit_summary" Tstr "Overall fit assessment (0-100%)" ].

Definition ResumeSuggestions_validate (L : Library) (v : json)
    : Pydantic.validation ResumeSuggestions :=
  match v with
  | JDict d =>
      Pydantic.pure mkResumeSuggestions
        <*> Pydantic.required_list d "missing_skills"
        <*> Pydantic.required_list d "improvement_points"
        <*> Pydantic.required d "overall_fit_summary" Pydantic.validate_str
  | _ => inl [("ResumeSuggestions", model_type)]
  end.

#[export] Instance ResumeSuggestions_model : BaseModel ResumeSuggestions := {
  model_schema := ResumeSuggestions_schema;
  model_validate := ResumeSuggestions_validate
}.

(** ** Strings as Python builds them *)

(** A value bound to a template variable: the program binds [str] and [int]
    values only. *)
Inductive pyvalue : Type :=
| PyStr (s : string)
| PyInt (z : Z).

(** [format(v, '')], which is [str(v)] for both kinds of value. *)
Definition py_str (v : pyvalue) : string :=
  match v with
  | PyStr s => s
  | PyInt z => NilZero.string_of_int (Z.to_int z)
  end.

(** [sep.join(items)] *)
Definition join (sep : string) (items : list string) : string :=
  String.concat sep items.

(** [s * n] *)
Fixpoint str_mul (s : string) (n : nat) : string :=
  match n with
  | O => EmptyString
  | S k => s ++ str_mul s k
  end.

Definition newline : string := "
".

(** ** Formatting a template *)

Module Formatter.

Inductive segment : Type :=
| Literal (text : string)
| Field (name : string).

Inductive scan_state : Type :=
| InText (text : string)
| AfterOpen (text : string)
| AfterClose (text : string)
| InField (name : string).

Definition emit (s : segment) (r : result (list segment)) : result (list segment) :=
  match r with
  | inl e => inl e
  | inr segs => inr (s :: segs)
  end.

Definition snoc (s : string) (c : ascii) : string := s ++ String c EmptyString.

(** The scan of [string.Formatter.parse]: doubled braces are literal braces,
    [{name}] is a replacement field.  The three templates of the program use
    plain names only; conversions, format specs, attributes and indices are
    not interpreted. *)
Fixpoint scan (t : string) (st : scan_state) : result (list segment) :=
  match t with
  | EmptyString =>
      match st with
      | InText text => Ok [Literal text]
      | AfterOpen _ => Raise (ValueError "Single '{' encountered in format string")
      | AfterClose _ => Raise (ValueError "Single '}' encountered in format string")
      | InField _ => Raise (ValueError "expected '}' before end of string")
      end
  | String c rest =>
      match st with
      | InText text =>
          if Ascii.eqb c "{" then scan rest (AfterOpen text)
          else if Ascii.eqb c "}" then scan rest (AfterClose text)
          else scan rest (InText (snoc text c))
      | AfterOpen text =>
          if Ascii.eqb c "{" then scan rest (InText (snoc text c))
          else if Ascii.eqb c "}" then
            emit (Literal text) (emit (Field EmptyString) (scan rest (InText EmptyString)))
          else emit (Literal text) (scan rest (InField (String c EmptyString)))
      | AfterClose text =>
          if Ascii.eqb c "}" then scan rest (InText (snoc text c))
          else Raise (ValueError "Single '}' encountered in format string")
      | InField name =>
          if Ascii.eqb c "}" then emit (Field name) (scan rest (InText EmptyString))
          else if Ascii.eqb c "{" then Raise (ValueError "unexpected '{' in field name")
          else scan rest (InField (snoc name c))
      end
  end.

Definition parse (template : string) : result (list segment) :=
  scan template (InText EmptyString).

(** Fields are filled from left to right; the first unbound name raises. *)
Fixpoint render (segs : list segment) (kwargs : list (string * pyvalue)) : result string :=
  match segs with
  | [] => Ok EmptyString
  | Literal text :: rest =>
      match render rest kwargs with
      | inl e => inl e
      | inr tail => inr (text ++ tail)
      end
  | Field name :: rest =>
      match dict_get name kwargs with
      | None => Raise (KeyError name)
      | Some v =>
          match render rest kwargs with
          | inl e => inl e
          | inr tail => inr (py_str v ++ tail)
          end
      end
  end.

(** [formatter.format(template, **kwargs)] *)
Definition format (template : string) (kwargs : list (string * pyvalue)) : result string :=
  match parse template with
  | inl e => inl e
  | inr segs => render segs kwargs
  end.

End Formatter.

(** ** The world: the model host and the console *)

(** One call to the model host. *)
Record Request : Type := mkRequest {
  request_model : string;
  request_temperature : Q;
  request_prompt : string
}.

(** The model host: from the calls made so far and the present one, the text
    it generates ([inr]) or the message of its fault ([inl]). *)
Class Host : Type :=
  generate : list Request -> Request -> string + string.

Record World : Type := mkWorld {
  calls : list Request;
  console : list string
}.

Definition initial_world : World := mkWorld [] [].

(** A computation: from a world, a value or a raised exception, and the
    world it leaves. *)
Definition M (A : Type) : Type := World -> result A * World.

Definition ret {A : Type} (a : A) : M A := fun w => (Ok a, w).

Definition raise {A : Type} (e : exception) : M A := fun w => (Raise e, w).

Definition bind {A B : Type} (m : M A) (k : A -> M B) : M B :=
  fun w =>
    match m w with
    | (inl e, w') => (inl e, w')
    | (inr a, w') => k a w'
    end.

Definition lift {A : Type} (r : result A) : M A := fun w => (r, w).

(** [try: m except Exception as e: ...], as the outcome handed to what
    follows: nothing escapes, and the effects of [m] stay. *)
Definition attempt {A : Type} (m : M A) : M (result A) :=
  fun w => let (r, w') := m w in (Ok r, w').

Notation "x <- m ;; k" := (bind m (fun x => k))
  (at level 100, m at next level, right associativity).
Notation "m ;; k" := (bind m (fun _ => k))
  (at level 100, right associativity).

(** [print(line)] *)
Definition print (line : string) : M unit :=
  fun w => (Ok tt, mkWorld (calls w) (console w ++ [line])%list).

(** [for x in items: body(x)] *)
Fixpoint for_each {A : Type} (items : list A) (body : A -> M unit) : M unit :=
  match items with
  | [] => ret tt
  | x :: rest => body x ;; for_each rest body
  end.

(** ** Runnables and their composition *)

Definition Runnable (A B : Type) : Type := A -> M B.

(** [first | second] *)
Definition pipe {A B C : Type} (first : Runnable A B) (second : Runnable B C)
    : Runnable A C :=
  fun input => x <- first input ;; second x.

Notation "f |> g" := (pipe f g) (at level 50, left associativity).

Module Ollama.

Record t : Type := mk {
  model : string;
  temperature : Q
}.

(** One blocking call, no retry: the call is recorded, a fault of the host is
    raised as it comes. *)
Definition invoke {H : Host} (llm : t) : Runnable string string :=
  fun prompt w =>
    let request := mkRequest (model llm) (temperature llm) prompt in
    let w' := mkWorld (calls w ++ [request])%list (console w) in
    match generate (calls w) request with
    | inl msg => (Raise (GenerationError msg), w')
    | inr text => (Ok text, w')
    end.

End Ollama.

Module PromptTemplate.

Record t : Type := mk {
  input_variables : list string;
  template : string;
  partial_variables : list (string * pyvalue)
}.

(** The values of the call come before the partial ones. *)
Definition format (self : t) (kwargs : list (string * pyvalue)) : result string :=
  Formatter.format (template self) (kwargs ++ partial_variables self)%list.

Definition first_missing (names : list string) (kwargs : list (string * pyvalue))
    : option string :=
  List.find (fun name => match dict_get name kwargs with None => true | Some _ => false end)
    names.

(** A declared input variable that the call does not bind raises before
    anything is formatted. *)
Definition invoke (self : t) : Runnable (list (string * pyvalue)) string :=
  fun kwargs =>
    match first_missing (input_variables self) kwargs with
    | Some name => raise (KeyError name)
    | None => lift (format self kwargs)
    end.

End PromptTemplate.

Module PydanticOutputParser.

Record t (A : Type) : Type := mk {
  pydantic_object : BaseModel A
}.

Definition get_format_instructions {L : Library} {A : Type} (self : t A) : string :=
  get_format_instructions (@model_schema A (pydantic_object self)).

(** The text is decoded, then validated against the model; either step
    failing raises the parser's exception. *)
Definition parse {L : Library} {A : Type} (self : t A) (text : string) : result A :=
  match parse_json_markdown text with
  | None => Raise (ParseValidationError invalid_json)
  | Some v =>
      match @model_validate A (pydantic_object self) L v with
      | inl errors => Raise (ParseValidationError (validation_error errors))
      | inr a => Ok a
      end
  end.

Definition invoke {L : Library} {A : Type} (self : t A) : Runnable string A :=
  fun text => lift (parse self text).

End PydanticOutputParser.

Module StrOutputParser.

Definition parse (text : string) : result string := Ok text.

Definition invoke : Runnable string string :=
  fun text => lift (parse text).

End StrOutputParser.

(** ** Feature 1: job description analyzer *)

Module JobDescriptionAnalyzer.

Record t : Type := mk {
  llm : Ollama.t;
  output_parser : PydanticOutputParser.t JobDetails;
  prompt : PromptTemplate.t
}.

Definition template : string :=
"Analyze the following job description and extract structured information.

Job Description:
{job_description}

{format_instructions}

Provide the extracted information in the specified JSON format.".

Definition _setup_prompt {L : Library} (output_parser : PydanticOutputParser.t JobDetails)
    : PromptTemplate.t :=
  let format_instructions := PydanticOutputParser.get_format_instructions output_parser in
  PromptTemplate.mk
    ["job_description"]
    template
    [("format_instructions", PyStr format_instructions)].

Definition __init__ {L : Library} (model_name : string) : t :=
  let llm := Ollama.mk model_name 0.3%Q in
  let output_parser := PydanticOutputParser.mk JobDetails_model in
  mk llm output_parser (_setup_prompt output_parser).

Definition analyze {L : Library} {H : Host} (self : t) (job_description : string)
    : M JobDetails :=
  let chain :=
    PromptTemplate.invoke (prompt self)
    |> Ollama.invoke (llm self)
    |> PydanticOutputParser.invoke (output_parser self) in
  result <- chain [("job_description", PyStr job_description)] ;;
  ret result.

End JobDescriptionAnalyzer.

(** ** Feature 2: resume improvement suggestions *)

Module ResumeSuggestionGenerator.

Record t : Type := mk {
  llm : Ollama.t;
  output_parser : PydanticOutputParser.t ResumeSuggestions;
  prompt : PromptTemplate.t
}.

Definition template : string :=
"Based on the job requirements and current resume, generate improvement suggestions.

Job Requirements:
- Title: {job_details}
- Skills needed: {required_skills}
- Experience: {experience_required} years
- Tools: {tools}

Current Resume:
{current_resume}

{format_instructions}

Provide structured suggestions to improve the resume for this job position.".

Definition _setup_prompt {L : Library}
    (output_parser : PydanticOutputParser.t ResumeSuggestions) : PromptTemplate.t :=
  let format_instructions := PydanticOutputParser.get_format_instructions output_parser in
  PromptTemplate.mk
    ["job_details"; "current_resume"]
    template
    [("format_instructions", PyStr format_instructions)].

Definition __init__ {L : Library} (model_name : string) : t :=
  let llm := Ollama.mk model_name 0.5%Q in
  let output_parser := PydanticOutputParser.mk ResumeSuggestions_model in
  mk llm output_parser (_setup_prompt output_parser).

(** The values [generate_suggestions] binds to the variables of the template. *)
Definition chain_input (job_details : JobDetails) (current_resume : string)
    : list (string * pyvalue) :=
  [ ("job_details", PyStr (job_title job_details));
    ("required_skills", PyStr (join ", " (required_skills job_details)));
    ("experience_required", PyInt (experience_required job_details));
    ("tools", PyStr (join ", " (tools job_details)));
    ("current_resume", PyStr current_resume) ].

Definition generate_suggestions {L : Library} {H : Host} (self : t)
    (job_details : JobDetails) (current_resume : string) : M ResumeSuggestions :=
  let chain :=
    PromptTemplate.invoke (prompt self)
    |> Ollama.invoke (llm self)
    |> PydanticOutputParser.invoke (output_parser self) in
  result <- chain (chain_input job_details current_resume) ;;
  ret result.

End ResumeSuggestionGenerator.

(** ** Feature 3: cover letter generator *)

Module CoverLetterGenerator.

Record t : Type := mk {
  llm : Ollama.t;
  prompt : PromptTemplate.t
}.

Definition template : string :=
"Write a professional cover letter for the following position:

Candidate Name: {candidate_name}
Job Title: {job_title}
Company: {company_name}

Key Achievements:
{key_achievements}

Job Requirements:
{job_requirements}

Instructions:
- Write a compelling cover letter (300-400 words)
- Highlight relevant experience
- Match key requirements from job description
- Use professional tone
- Include specific examples from achievements
- Output only the cover letter text, no JSON or formatting markers

Cover Letter:".

Definition _setup_prompt : PromptTemplate.t :=
  PromptTemplate.mk
    ["candidate_name"; "job_title"; "company_name"; "key_achievements"; "job_requirements"]
    template
    [].

Definition __init__ (model_name : string) : t :=
  let llm := Ollama.mk model_name 0.7%Q in
  mk llm _setup_prompt.

Definition chain_input (candidate_name job_title company_name key_achievements
    job_requirements : string) : list (string * pyvalue) :=
  [ ("candidate_name", PyStr candidate_name);
    ("job_title", PyStr job_title);
    ("company_name", PyStr company_name);
    ("key_achievements", PyStr key_achievements);
    ("job_requirements", PyStr job_requirements) ].

Definition generate {H : Host} (self : t) (candidate_name job_title company_name
    key_achievements job_requirements : string) : M string :=
  let chain :=
    PromptTemplate.invoke (prompt self)
    |> Ollama.invoke (llm self)
    |> StrOutputParser.invoke in
  result <- chain
    (chain_input candidate_name job_title company_name key_achievements job_requirements) ;;
  ret result.

End CoverLetterGenerator.

(** ** The demonstration driver *)

Definition sample_job_description : string :=
"
    Senior Python Developer
    
    We are looking for a Senior Python Developer with 5+ years of experience.
    
    Required Skills:
    - Python (Django, FastAPI, Flask)
    - PostgreSQL and Redis
    - Docker and Kubernetes
    - AWS (EC2, S3, Lambda)
    - RESTful API design
    
    Responsibilities:
    - Design and develop scalable web applications
    - Lead code reviews and mentor junior developers
    - Optimize database performance
    - Collaborate with DevOps team
    
    Soft Skills:
    - Strong communication
    - Team player
    - Problem-solving
    - Leadership experience
    ".

Definition sample_resume : string :=
"
    JOHN DOE
    john.doe@email.com | linkedin.com/in/johndoe
    
    EXPERIENCE:
    Python Developer at Tech Corp (3 years)
    - Developed REST APIs using Flask
    - Worked with MySQL databases
    - Basic Docker experience
    
    Junior Developer at Startup (2 years)
    - Built web applications
    - Fixed bugs and optimized code
    
    SKILLS:
    - Python, JavaScript
    - Flask, Django
    - MySQL
    - Git
    ".

Definition sample_key_achievements : string :=
"
            - Led development of 3 REST APIs serving 100K+ users
            - Optimized database queries reducing response time by 40%
            - Mentored 2 junior developers
            - Implemented CI/CD pipelines using Docker
            ".

Definition rule (c : string) : string := str_mul c 80.

Definition success_banner : string := "✅ PROJECT 1 COMPLETED SUCCESSFULLY!".

(** The body of the first [try]. *)
Definition feature_1 {L : Library} {H : Host} : M JobDetails :=
  let analyzer := JobDescriptionAnalyzer.__init__ "mistral" in
  job_details <- JobDescriptionAnalyzer.analyze analyzer sample_job_description ;;
  print (newline ++ "✅ Extracted Job Details:") ;;
  print ("   Job Title: " ++ job_title job_details) ;;
  print ("   Experience Required: " ++ py_str (PyInt (experience_required job_details))
         ++ " years") ;;
  print ("   Required Skills: " ++ join ", " (required_skills job_details)) ;;
  print ("   Tools: " ++ join ", " (tools job_details)) ;;
  print ("   Soft Skills: " ++ join ", " (soft_skills job_details)) ;;
  ret job_details.

(** The body of the second [try]. *)
Definition feature_2 {L : Library} {H : Host} (job_details : JobDetails) : M unit :=
  let suggestion_gen := ResumeSuggestionGenerator.__init__ "mistral" in
  suggestions <-
    ResumeSuggestionGenerator.generate_suggestions suggestion_gen job_details sample_resume ;;
  print (newline ++ "✅ Resume Improvement Suggestions:") ;;
  print (newline ++ "   Missing Skills to Add:") ;;
  for_each (missing_skills suggestions) (fun skill => print ("      • " ++ skill)) ;;
  print (newline ++ "   Improvement Points:") ;;
  for_each (improvement_points suggestions) (fun point => print ("      • " ++ point)) ;;
  print (newline ++ "   Overall Fit Summary: " ++ overall_fit_summary suggestions).

(** The body of the third [try]. *)
Definition feature_3 {H : Host} : M unit :=
  let cover_letter_gen := CoverLetterGenerator.__init__ "mistral" in
  cover_letter <-
    CoverLetterGenerator.generate cover_letter_gen
      "John Doe"
      "Senior Python Developer"
      "Tech Corp"
      sample_key_achievements
      "Python, Django, FastAPI, PostgreSQL, Redis, Docker, AWS" ;;
  print (newline ++ "✅ Generated Cover Letter:") ;;
  print (newline ++ rule "-") ;;
  print cover_letter ;;
  print (rule "-").

Definition main {L : Library} {H : Host} : M unit :=
  print (newline ++ rule "=") ;;
  print "PROJECT 1: AI JOB APPLICATION ASSISTANT" ;;
  print (rule "=") ;;
  print (newline ++ rule "-") ;;
  print "FEATURE 1: JOB DESCRIPTION ANALYZER" ;;
  print (rule "-") ;;
  outcome_1 <- attempt feature_1 ;;
  match outcome_1 with
  | inl e => print ("❌ Error in Job Description Analyzer: " ++ exception_str e)
  | inr job_details =>
      print (newline ++ rule "-") ;;
      print "FEATURE 2: RESUME IMPROVEMENT SUGGESTIONS" ;;
      print (rule "-") ;;
      outcome_2 <- attempt (feature_2 job_details) ;;
      match outcome_2 with
      | inl e => print ("❌ Error in Resume Suggestion Generator: " ++ exception_str e)
      | inr _ =>
          print (newline ++ rule "-") ;;
          print "FEATURE 3: COVER LETTER GENERATOR" ;;
          print (rule "-") ;;
          outcome_3 <- attempt feature_3 ;;
          match outcome_3 with
          | inl e => print ("❌ Error in Cover Letter Generator: " ++ exception_str e)
          | inr _ =>
              print (newline ++ rule "=") ;;
              print success_banner ;;
              print (rule "=" ++ newline)
          end
      end
  end.

(** ** Test doubles for the collaborators *)

Module Doubles.

Definition quote : string := String (Ascii.ascii_of_nat 34) EmptyString.

(** [s] between double quotes. *)
Definition q (s : string) : string := quote ++ s ++ quote.

(** A reply that matches the [JobDetails] schema. *)
Definition job_details_text : string :=
  "{" ++ q "job_title" ++ ": " ++ q "Senior Python Developer" ++ ", "
      ++ q "required_skills" ++ ": [" ++ q "Python" ++ ", " ++ q "PostgreSQL" ++ "], "
      ++ q "experience_required" ++ ": 5, "
      ++ q "tools" ++ ": [" ++ q "Docker" ++ "], "
      ++ q "soft_skills" ++ ": [" ++ q "Leadership" ++ "]}".

Definition job_details_value : json :=
  JDict [ ("job_title", JStr "Senior Python Developer");
          ("required_skills", JList [JStr "Python"; JStr "PostgreSQL"]);
          ("experience_required", JInt 5);
          ("tools", JList [JStr "Docker"]);
          ("soft_skills", JList [JStr "Leadership"]) ].

(** The same reply without [experience_required]. *)
Definition no_experience_text : string :=
  "{" ++ q "job_title" ++ ": " ++ q "Senior Python Developer" ++ ", "
      ++ q "required_skills" ++ ": [" ++ q "Python" ++ ", " ++ q "PostgreSQL" ++ "], "
      ++ q "tools" ++ ": [" ++ q "Docker" ++ "], "
      ++ q "soft_skills" ++ ": [" ++ q "Leadership" ++ "]}".

Definition no_experience_value : json :=
  JDict [ ("job_title", JStr "Senior Python Developer");
          ("required_skills", JList [JStr "Python"; JStr "PostgreSQL"]);
          ("tools", JList [JStr "Docker"]);
          ("soft_skills", JList [JStr "Leadership"]) ].

(** The same reply with [experience_required] written [lit], and the value
    it decodes to when [lit] stands for [v]. *)
Definition experience_text (lit : string) : string :=
  "{" ++ q "job_title" ++ ": " ++ q "Senior Python Developer" ++ ", "
      ++ q "required_skills" ++ ": [" ++ q "Python" ++ ", " ++ q "PostgreSQL" ++ "], "
      ++ q "experience_required" ++ ": " ++ lit ++ ", "
      ++ q "tools" ++ ": [" ++ q "Docker" ++ "], "
      ++ q "soft_skills" ++ ": [" ++ q "Leadership" ++ "]}".

Definition experience_value (v : json) : json :=
  JDict [ ("job_title", JStr "Senior Python Developer");
          ("required_skills", JList [JStr "Python"; JStr "PostgreSQL"]);
          ("experience_required", v);
          ("tools", JList [JStr "Docker"]);
          ("soft_skills", JList [JStr "Leadership"]) ].

(** A reply that matches the [ResumeSuggestions] schema. *)
Definition suggestions_text : string :=
  "{" ++ q "missing_skills" ++ ": [" ++ q "PostgreSQL" ++ ", " ++ q "Kubernetes" ++ "], "
      ++ q "improvement_points" ++ ": [" ++ q "Quantify the API work" ++ "], "
      ++ q "overall_fit_summary" ++ ": " ++ q "70%" ++ "}".

Definition suggestions_value : json :=
  JDict [ ("missing_skills", JList [JStr "PostgreSQL"; JStr "Kubernetes"]);
          ("improvement_points", JList [JStr "Quantify the API work"]);
          ("overall_fit_summary", JStr "70%") ].

(** The decoder of the double knows these texts and no other. *)
Definition decoded : list (string * json) :=
  [ (job_details_text, job_details_value);
    (no_experience_text, no_experience_value);
    (experience_text (q "5"), experience_value (JStr "5"));
    (experience_text (q "five"), experience_value (JStr "five"));
    (experience_text "-3", experience_value (JInt (-3)));
    (experience_text "null", experience_value JNull);
    (suggestions_text, suggestions_value) ].

(** A [str] that is a plain decimal numeral, with or without a minus sign. *)
Definition numeral_as_int (s : string) : option Z :=
  option_map Z.of_int (NilZero.int_of_string s).

(** A finite [float] with no fractional part. *)
Definition integral_float_as_int (f : spec_float) : option Z :=
  match f with
  | S754_zero _ => Some 0%Z
  | S754_infinity _ | S754_nan => None
  | S754_finite sign m e =>
      let magnitude :=
        match e with
        | Z0 => Some (Zpos m)
        | Zpos k => Some (Zpos m * 2 ^ Zpos k)%Z
        | Zneg k =>
            if (Zpos m mod 2 ^ Zpos k =? 0)%Z then Some (Zpos m / 2 ^ Zpos k)%Z else None
        end in
      option_map (fun z => if sign then (- z)%Z else z) magnitude
  end.

Definition text_of_exception (e : exception) : string :=
  match e with
  | GenerationError msg => msg
  | ParseValidationError invalid_json => "Invalid json output"
  | ParseValidationError (validation_error _) => "Failed to parse the completion"
  | KeyError name => name
  | ValueError msg => msg
  end.

#[export] Instance library : Library := {
  parse_json_markdown := fun text => dict_get text decoded;
  str_as_int := numeral_as_int;
  float_as_int := integral_float_as_int;
  get_format_instructions := fun schema =>
    "The output should be formatted as a JSON instance of " ++ schema_title schema;
  exception_str := text_of_exception
}.

(** A host that is down. *)
Definition unreachable : Host := fun _ _ => inl "connection refused".

(** A host that answers the n-th call with the n-th reply of a script, and
    faults once the script is over. *)
Definition scripted (replies : list (string + string)) : Host :=
  fun history _ => nth (length history) replies (inl "connection reset").

End Doubles.

(** More replies, for the suggestion generator and for malformed fields. *)
Module Replies.

Import Doubles.

(** A suggestion reply without its summary. *)
Definition no_summary_text : string :=
  "{" ++ q "missing_skills" ++ ": [" ++ q "PostgreSQL" ++ ", " ++ q "Kubernetes" ++ "], "
      ++ q "improvement_points" ++ ": [" ++ q "Quantify the API work" ++ "]}".

Definition no_summary_value : json :=
  JDict [ ("missing_skills", JList [JStr "PostgreSQL"; JStr "Kubernetes"]);
          ("improvement_points", JList [JStr "Quantify the API work"]) ].

(** A suggestion reply whose skills are one string, not an array. *)
Definition joined_missing_text : string :=
  "{" ++ q "missing_skills" ++ ": " ++ q "PostgreSQL, Kubernetes" ++ ", "
      ++ q "improvement_points" ++ ": [" ++ q "Quantify the API work" ++ "], "
      ++ q "overall_fit_summary" ++ ": " ++ q "70%" ++ "}".

Definition joined_missing_value : json :=
  JDict [ ("missing_skills", JStr "PostgreSQL, Kubernetes");
          ("improvement_points", JList [JStr "Quantify the API work"]);
          ("overall_fit_summary", JStr "70%") ].

(** A job reply whose skills are one string, not an array. *)
Definition joined_skills_text : string :=
  "{" ++ q "job_title" ++ ": " ++ q "Senior Python Developer" ++ ", "
      ++ q "required_skills" ++ ": " ++ q "Python, PostgreSQL" ++ ", "
      ++ q "experience_required" ++ ": 5, "
      ++ q "tools" ++ ": [" ++ q "Docker" ++ "], "
      ++ q "soft_skills" ++ ": [" ++ q "Leadership" ++ "]}".

Definition joined_skills_value : json :=
  JDict [ ("job_title", JStr "Senior Python Developer");
          ("required_skills", JStr "Python, PostgreSQL");
          ("experience_required", JInt 5);
          ("tools", JList [JStr "Docker"]);
          ("soft_skills", JList [JStr "Leadership"]) ].

(** The sample job reply with its keys in another order and one more key. *)
Definition shuffled_text : string :=
  "{" ++ q "soft_skills" ++ ": [" ++ q "Leadership" ++ "], "
      ++ q "company" ++ ": " ++ q "Tech Corp" ++ ", "
      ++ q "experience_required" ++ ": 5, "
      ++ q "tools" ++ ": [" ++ q "Docker" ++ "], "
      ++ q "job_title" ++ ": " ++ q "Senior Python Developer" ++ ", "
      ++ q "required_skills" ++ ": [" ++ q "Python" ++ ", " ++ q "PostgreSQL" ++ "]}".

Definition shuffled_value : json :=
  JDict [ ("soft_skills", JList [JStr "Leadership"]);
          ("company", JStr "Tech Corp");
          ("experience_required", JInt 5);
          ("tools", JList [JStr "Docker"]);
          ("job_title", JStr "Senior Python Developer");
          ("required_skills", JList [JStr "Python"; JStr "PostgreSQL"]) ].

(** A reply that is a JSON array. *)
Definition array_text : string := "[" ++ q "Python" ++ ", " ++ q "PostgreSQL" ++ "]".

Definition array_value : json := JList [JStr "Python"; JStr "PostgreSQL"].

Definition decoded : list (string * json) :=
  [ (no_summary_text, no_summary_value);
    (joined_missing_text, joined_missing_value);
    (joined_skills_text, joined_skills_value);
    (shuffled_text, shuffled_value);
    (array_text, array_value) ].

(** The library of [Doubles], with a decoder that knows these replies too. *)
Definition library : Library := {|
  parse_json_markdown := fun text =>
    match dict_get text decoded with
    | Some v => Some v
    | None => dict_get text Doubles.decoded
    end;
  str_as_int := numeral_as_int;
  float_as_int := integral_float_as_int;
  get_format_instructions := fun schema =>
    "The output should be formatted as a JSON instance of " ++ schema_title schema;
  exception_str := text_of_exception
|}.

End Replies.

(** * Vocabulary of the statements *)

(** ** Replies and their validation *)

(** The output parser the analyzer is built with. *)
Definition job_details_parser {L : Library} (model_name : string)
    : PydanticOutputParser.t JobDetails :=
  JobDescriptionAnalyzer.output_parser (JobDescriptionAnalyzer.__init__ model_name).

(** That parser on the doubled library, for the model the driver names. *)
Definition parse_reply (text : string) : result JobDetails :=
  PydanticOutputParser.parse (L := Doubles.library)
    (job_details_parser (L := Doubles.library) "mistral") text.

(** The record of the sample reply, with [years] of experience. *)
Definition sample_details (years : Z) : JobDetails :=
  mkJobDetails "Senior Python Developer" ["Python"; "PostgreSQL"] years
    ["Docker"] ["Leadership"].

(** The items of a JSON object carry the record [r]: each of the five fields
    is present with a value of its declared type.  Other keys are free. *)
Definition carries (d : list (string * json)) (r : JobDetails) : Prop :=
  dict_get "job_title" d = Some (JStr (job_title r)) /\
  dict_get "required_skills" d = Some (JList (map JStr (required_skills r))) /\
  dict_get "experience_required" d = Some (JInt (experience_required r)) /\
  dict_get "tools" d = Some (JList (map JStr (tools r))) /\
  dict_get "soft_skills" d = Some (JList (map JStr (soft_skills r))).

Definition mandatory_fields : list string :=
  map field_name (schema_fields JobDetails_schema).

(** A validation that failed with the error line [e] among its lines. *)
Definition fails_with {A : Type} (e : string * error_type) (v : Pydantic.validation A)
    : Prop :=
  exists errors, v = inl errors /\ In e errors.

(** What the [int] validator turns down: [None], a list, a dict, a [str] or a
    [float] that the lax coercion of the library cannot read as an integer.
    An [int] and a [bool] are never turned down. *)
Definition not_coercible {L : Library} (v : json) : Prop :=
  match v with
  | JNull | JList _ | JDict _ => True
  | JStr s => str_as_int s = None
  | JFloat f => float_as_int f = None
  | JInt _ | JBool _ => False
  end.

(** ** Runs of the generators *)

(** The world after one more call to the host. *)
Definition performed (w : World) (request : Request) : World :=
  mkWorld (calls w ++ [request])%list (console w).

(** The run that led from [w] to [w'] made the call [request], and no other. *)
Definition made_call (w w' : World) (request : Request) : Prop :=
  calls w' = (calls w ++ [request])%list.

(** The prompt each generator renders for its inputs. *)
Definition analyzer_prompt {L : Library} (model_name job_description : string)
    : result string :=
  PromptTemplate.format
    (JobDescriptionAnalyzer.prompt (JobDescriptionAnalyzer.__init__ model_name))
    [("job_description", PyStr job_description)].

Definition suggestion_prompt {L : Library} (model_name : string)
    (job_details : JobDetails) (current_resume : string) : result string :=
  PromptTemplate.format
    (ResumeSuggestionGenerator.prompt (ResumeSuggestionGenerator.__init__ model_name))
    (ResumeSuggestionGenerator.chain_input job_details current_resume).

Definition letter_prompt (model_name candidate_name job_title company_name
    key_achievements job_requirements : string) : result string :=
  PromptTemplate.format
    (CoverLetterGenerator.prompt (CoverLetterGenerator.__init__ model_name))
    (CoverLetterGenerator.chain_input candidate_name job_title company_name
       key_achievements job_requirements).

(** [sub] occurs in [s]. *)
Definition contains (sub s : string) : Prop :=
  exists before after, s = before ++ sub ++ after.

(** ** Runs of the driver *)

(** The world after some more lines on the console. *)
Definition printed (w : World) (lines : list string) : World :=
  mkWorld (calls w) (console w ++ lines)%list.

(** The lines [main] prints before the first feature, and the heading it
    prints before each of them. *)
Definition opening : list string :=
  [newline ++ rule "="; "PROJECT 1: AI JOB APPLICATION ASSISTANT"; rule "="].

Definition heading (title : string) : list string :=
  [newline ++ rule "-"; title; rule "-"].

(** The worlds in which the three features start. *)
Definition start_1 : World :=
  printed initial_world (opening ++ heading "FEATURE 1: JOB DESCRIPTION ANALYZER")%list.

Definition start_2 (after_1 : World) : World :=
  printed after_1 (heading "FEATURE 2: RESUME IMPROVEMENT SUGGESTIONS").

Definition start_3 (after_2 : World) : World :=
  printed after_2 (heading "FEATURE 3: COVER LETTER GENERATOR").

(** No line of a plain console can be taken for the success banner: none
    starts with its check mark. *)
Definition plain (lines : list string) : Prop :=
  Forall (fun line => String.prefix "✅" line = false) lines.

(** The three features succeed, each started where [main] starts it. *)
Definition all_features_succeed {L : Library} {H : Host} : Prop :=
  exists job_details,
    fst (feature_1 start_1) = inr job_details
    /\ fst (feature_2 job_details (start_2 (snd (feature_1 start_1)))) = inr tt
    /\ fst (feature_3
              (start_3 (snd (feature_2 job_details (start_2 (snd (feature_1 start_1)))))))
       = inr tt.

(** The lines [main] prints after the third feature. *)
Definition closing : list string :=
  [newline ++ rule "="; success_banner; rule "=" ++ newline].

(** A number of calls, from the count each feature adds. *)
Ltac count_calls :=
  unfold start_1, start_2, start_3, printed, initial_world in *;
  cbn [calls length] in *; lia.

(** ** Replies to the suggestion generator, and malformed replies *)

(** The output parser the suggestion generator is built with. *)
Definition suggestions_parser {L : Library} (model_name : string)
    : PydanticOutputParser.t ResumeSuggestions :=
  ResumeSuggestionGenerator.output_parser (ResumeSuggestionGenerator.__init__ model_name).

(** The items of a JSON object carry the suggestions [r]. *)
Definition carries_suggestions (d : list (string * json)) (r : ResumeSuggestions) : Prop :=
  dict_get "missing_skills" d = Some (JList (map JStr (missing_skills r))) /\
  dict_get "improvement_points" d = Some (JList (map JStr (improvement_points r))) /\
  dict_get "overall_fit_summary" d = Some (JStr (overall_fit_summary r)).

Definition suggestion_fields : list string :=
  map field_name (schema_fields ResumeSuggestions_schema).

(** The fields a schema declares as [List[str]]. *)
Definition list_fields (schema : ModelSchema) : list string :=
  map field_name
    (filter (fun f => match field_annotation f with TList_str => true | _ => false end)
       (schema_fields schema)).

Definition is_array (v : json) : Prop :=
  match v with
  | JList _ => True
  | _ => False
  end.

(** What a decoder gave is a JSON object. *)
Definition is_object (decoding : option json) : Prop :=
  match decoding with
  | Some (JDict _) => True
  | _ => False
  end.

(** An exception of the two kinds a generator lets through. *)
Definition generation_or_validation (e : exception) : Prop :=
  match e with
  | GenerationError _ | ParseValidationError _ => True
  | KeyError _ | ValueError _ => False
  end.

(** ** The calls and the console of the driver *)

(** The model and the temperature of each call, in order. *)
Definition settings (requests : list Request) : list (string * Q) :=
  map (fun request => (request_model request, request_temperature request)) requests.

(** The console of [w'] is the console of [w] with more lines after it. *)
Definition extends (w w' : World) : Prop :=
  exists lines, console w' = (console w ++ lines)%list.

(** What each feature prints once it has its result. *)
Definition details_lines (job_details : JobDetails) : list string :=
  [ newline ++ "✅ Extracted Job Details:";
    "   Job Title: " ++ job_title job_details;
    "   Experience Required: " ++ py_str (PyInt (experience_required job_details))
      ++ " years";
    "   Required Skills: " ++ join ", " (required_skills job_details);
    "   Tools: " ++ join ", " (tools job_details);
    "   Soft Skills: " ++ join ", " (soft_skills job_details) ].

Definition bullet (item : string) : string := "      • " ++ item.

Definition suggestion_lines (suggestions : ResumeSuggestions) : list string :=
  List.app
    [ newline ++ "✅ Resume Improvement Suggestions:";
      newline ++ "   Missing Skills to Add:" ]
    (List.app (map bullet (missing_skills suggestions))
       (List.app [ newline ++ "   Improvement Points:" ]
          (List.app (map bullet (improvement_points suggestions))
             [ newline ++ "   Overall Fit Summary: "
                 ++ overall_fit_summary suggestions ]))).

Definition letter_lines (cover_letter : string) : list string :=
  [ newline ++ "✅ Generated Cover Letter:"; newline ++ rule "-"; cover_letter; rule "-" ].

(** The three calls of the driver, with the prompts [p1], [p2] and [p3]. *)
Definition call_1 (p1 : string) : Request := mkRequest "mistral" 0.3%Q p1.
Definition call_2 (p2 : string) : Request := mkRequest "mistral" 0.5%Q p2.
Definition call_3 (p3 : string) : Request := mkRequest "mistral" 0.7%Q p3.

(** The prompt of the third feature: its five inputs are written in [main]. *)
Definition driver_letter_prompt : result string :=
  letter_prompt "mistral" "John Doe" "Senior Python Developer" "Tech Corp"
    sample_key_achievements "Python, Django, FastAPI, PostgreSQL, Redis, Docker, AWS".

(** * Properties *)

(** ** Validation of a reply against [JobDetails] *)

Section Validation.
Context {L : Library}.

Lemma validate_items_strings (name : string) (index : nat) (items : list string) :
  Pydantic.validate_items name index (map JStr items) = inr items.
Proof.
  revert index. induction items as [|s items IH]; intros index; simpl.
  - reflexivity.
  - rewrite IH. reflexivity.
Qed.

Lemma required_list_present d name (items : list string) :
  dict_get name d = Some (JList (map JStr items)) ->
  Pydantic.required_list d name = inr items.
Proof.
  intros Hget. unfold Pydantic.required_list. rewrite Hget. simpl.
  apply validate_items_strings.
Qed.

Lemma required_list_absent d name :
  dict_get name d = None ->
  fails_with (name, missing) (Pydantic.required_list d name).
Proof.
  intros Hget. unfold Pydantic.required_list. rewrite Hget.
  exists [(name, missing)]. split; [reflexivity | left; reflexivity].
Qed.

Lemma required_present {A : Type} d name (validator : json -> error_type + A) v a :
  dict_get name d = Some v ->
  validator v = inr a ->
  Pydantic.required d name validator = inr a.
Proof.
  intros Hget Hval. unfold Pydantic.required. rewrite Hget, Hval. reflexivity.
Qed.

Lemma required_absent {A : Type} d name (validator : json -> error_type + A) :
  dict_get name d = None ->
  fails_with (name, missing) (Pydantic.required d name validator).
Proof.
  intros Hget. unfold Pydantic.required. rewrite Hget.
  exists [(name, missing)]. split; [reflexivity | left; reflexivity].
Qed.

Lemma required_rejected {A : Type} d name (validator : json -> error_type + A) v e :
  dict_get name d = Some v ->
  validator v = inl e ->
  fails_with (name, e) (Pydantic.required d name validator).
Proof.
  intros Hget Hval. unfold Pydantic.required. rewrite Hget, Hval.
  exists [(name, e)]. split; [reflexivity | left; reflexivity].
Qed.

Lemma ap_fails_left {A B : Type} e (f : Pydantic.validation (A -> B)) x :
  fails_with e f -> fails_with e (f <*> x).
Proof.
  intros [errors [-> Hin]]. destruct x as [ex | a]; simpl.
  - exists (errors ++ ex)%list. split; [reflexivity | apply in_or_app; left; exact Hin].
  - exists errors. split; [reflexivity | exact Hin].
Qed.

Lemma ap_fails_right {A B : Type} e (f : Pydantic.validation (A -> B)) x :
  fails_with e x -> fails_with e (f <*> x).
Proof.
  intros [errors [-> Hin]]. destruct f as [ef | g]; simpl.
  - exists (ef ++ errors)%list. split; [reflexivity | apply in_or_app; right; exact Hin].
  - exists errors. split; [reflexivity | exact Hin].
Qed.

Lemma ap_succeeds {A B : Type} (f : Pydantic.validation (A -> B)) x b :
  f <*> x = inr b -> exists g a, f = inr g /\ x = inr a /\ b = g a.
Proof.
  destruct f as [ef | g], x as [ex | a]; simpl; try discriminate.
  intros [= <-]. exists g, a. repeat split.
Qed.

Lemma required_succeeds {A : Type} d name (validator : json -> error_type + A) a :
  Pydantic.required d name validator = inr a ->
  exists v, dict_get name d = Some v /\ validator v = inr a.
Proof.
  unfold Pydantic.required. destruct (dict_get name d) as [v|]; [|discriminate].
  destruct (validator v) as [e | a'] eqn:Hval; [discriminate|].
  intros [= <-]. exists v. split; [reflexivity | exact Hval].
Qed.

(** A failed validation is what the parser raises. *)
Lemma parse_fails_with model_name text v e :
  parse_json_markdown text = Some v ->
  fails_with e (JobDetails_validate L v) ->
  exists errors,
    PydanticOutputParser.parse (job_details_parser model_name) text
      = Raise (ParseValidationError (validation_error errors))
    /\ In e errors.
Proof.
  intros Hdec [errors [Hval Hin]]. exists errors. split; [|exact Hin].
  unfold PydanticOutputParser.parse. rewrite Hdec. simpl. rewrite Hval. reflexivity.
Qed.

Lemma validate_int_not_coercible v :
  not_coercible v -> exists e, Pydantic.validate_int v = inl e.
Proof.
  destruct v; simpl; intros Hv; try contradiction; try (eexists; reflexivity).
  - rewrite Hv. eexists; reflexivity.
  - rewrite Hv. eexists; reflexivity.
Qed.

(** A reply whose text fields have their declared types is parsed as soon as
    the [int] validator accepts its experience, and the record holds what the
    validator made of it. *)
Lemma reply_with_accepted_experience (model_name text : string)
    (d : list (string * json)) (title : string) (skills tool_list soft : list string)
    (v : json) (years : Z) :
  parse_json_markdown text = Some (JDict d) ->
  dict_get "job_title" d = Some (JStr title) ->
  dict_get "required_skills" d = Some (JList (map JStr skills)) ->
  dict_get "experience_required" d = Some v ->
  Pydantic.validate_int v = inr years ->
  dict_get "tools" d = Some (JList (map JStr tool_list)) ->
  dict_get "soft_skills" d = Some (JList (map JStr soft)) ->
  PydanticOutputParser.parse (job_details_parser model_name) text
    = Ok (mkJobDetails title skills years tool_list soft).
Proof.
  intros Hdec Ht Hs He Hyears Htl Hss.
  unfold PydanticOutputParser.parse. rewrite Hdec. simpl.
  rewrite (required_present _ _ Pydantic.validate_str Ht eq_refl).
  rewrite (required_list_present _ _ _ Hs).
  rewrite (required_present _ _ Pydantic.validate_int He Hyears).
  rewrite (required_list_present _ _ _ Htl).
  rewrite (required_list_present _ _ _ Hss).
  reflexivity.
Qed.

(** C1: a reply that decodes to an object carrying the five fields with
    their declared types is parsed, and the record holds the values of the
    input field by field. *)
Theorem parse_round_trip (model_name text : string) (d : list (string * json))
    (r : JobDetails) :
  parse_json_markdown text = Some (JDict d) ->
  carries d r ->
  PydanticOutputParser.parse (job_details_parser model_name) text = Ok r.
Proof.
  intros Hdec (Ht & Hs & He & Htl & Hss). destruct r as [title skills years tool_list soft].
  apply reply_with_accepted_experience with (d := d) (v := JInt years);
    solve [assumption | reflexivity].
Qed.

(** C2: a reply that decodes to an object from which one of the five
    mandatory fields is absent is not parsed: the parser raises its
    validation error, and the error names the field as missing. *)
Theorem missing_field_is_rejected (model_name text : string)
    (d : list (string * json)) (name : string) :
  parse_json_markdown text = Some (JDict d) ->
  In name mandatory_fields ->
  dict_get name d = None ->
  exists errors,
    PydanticOutputParser.parse (job_details_parser model_name) text
      = Raise (ParseValidationError (validation_error errors))
    /\ In (name, missing) errors.
Proof.
  intros Hdec Hin Hget.
  apply parse_fails_with with (v := JDict d); [exact Hdec|].
  unfold JobDetails_validate.
  simpl in Hin.
  destruct Hin as [<- | [<- | [<- | [<- | [<- | []]]]]].
  - do 4 apply ap_fails_left. apply ap_fails_right, required_absent, Hget.
  - do 3 apply ap_fails_left. apply ap_fails_right, required_list_absent, Hget.
  - do 2 apply ap_fails_left. apply ap_fails_right, required_absent, Hget.
  - apply ap_fails_left. apply ap_fails_right, required_list_absent, Hget.
  - apply ap_fails_right, required_list_absent, Hget.
Qed.

(** C3 (amended): a reply whose [experience_required] is present with a
    value the [int] validator turns down (null, a list, an object, a string
    or a float that cannot be read as an integer) is not parsed: the parser
    raises its validation error, with a line for that field. *)
Theorem uncoercible_experience_is_rejected (model_name text : string)
    (d : list (string * json)) (v : json) :
  parse_json_markdown text = Some (JDict d) ->
  dict_get "experience_required" d = Some v ->
  not_coercible v ->
  exists errors e,
    PydanticOutputParser.parse (job_details_parser model_name) text
      = Raise (ParseValidationError (validation_error errors))
    /\ In ("experience_required", e) errors.
Proof.
  intros Hdec Hget Hv.
  destruct (validate_int_not_coercible v Hv) as [e He].
  destruct (parse_fails_with model_name text (e := ("experience_required", e)) Hdec)
    as [errors Herr].
  - unfold JobDetails_validate.
    do 2 apply ap_fails_left. apply ap_fails_right.
    apply required_rejected with (v := v); assumption.
  - exists errors, e. exact Herr.
Qed.

(** C4 (amended): the [experience_required] of an accepted record is the
    integer the [int] validator made of the value in the reply, whatever its
    sign; when that value is an integer [z], negative or not, the record
    holds [z]. *)
Theorem accepted_experience_is_validated_value (model_name text : string)
    (r : JobDetails) :
  PydanticOutputParser.parse (job_details_parser model_name) text = Ok r ->
  exists d v,
    parse_json_markdown text = Some (JDict d)
    /\ dict_get "experience_required" d = Some v
    /\ Pydantic.validate_int v = inr (experience_required r)
    /\ (forall z, v = JInt z -> experience_required r = z).
Proof.
  unfold PydanticOutputParser.parse.
  destruct (parse_json_markdown text) as [v0|] eqn:Hdec; [|discriminate].
  simpl.
  destruct (JobDetails_validate L v0) as [errors | r'] eqn:Hval; [discriminate|].
  intros [= <-].
  destruct v0; try (simpl in Hval; discriminate).
  unfold JobDetails_validate in Hval.
  apply ap_succeeds in Hval. destruct Hval as (g4 & ss & H4 & _ & ->).
  apply ap_succeeds in H4. destruct H4 as (g3 & tl & H3 & _ & ->).
  apply ap_succeeds in H3. destruct H3 as (g2 & er & H2 & Her & ->).
  apply ap_succeeds in H2. destruct H2 as (g1 & rs & H1 & _ & ->).
  apply ap_succeeds in H1. destruct H1 as (g0 & jt & H0 & _ & ->).
  unfold Pydantic.pure in H0. injection H0 as <-.
  apply required_succeeds in Her. destruct Her as (v & Hget & Hv).
  exists items, v. simpl. repeat split; try assumption.
  intros z ->. simpl in Hv. injection Hv as ->. reflexivity.
Qed.

End Validation.

(** ** The three pipelines *)

Section Pipelines.
Context {L : Library} {H : Host}.

Lemma bind_ret {A : Type} (m : M A) (w : World) :
  (x <- m ;; ret x) w = m w.
Proof.
  unfold bind. destruct (m w) as [[e | a] w']; reflexivity.
Qed.

(** A chain whose prompt renders: one call, then the parser on the reply, or
    the fault of the host. *)
Lemma chain_run {A : Type} (pt : PromptTemplate.t) (llm : Ollama.t)
    (post : string -> result A) (kwargs : list (string * pyvalue)) (p : string)
    (w : World) :
  PromptTemplate.first_missing (PromptTemplate.input_variables pt) kwargs = None ->
  PromptTemplate.format pt kwargs = Ok p ->
  let request := mkRequest (Ollama.model llm) (Ollama.temperature llm) p in
  (PromptTemplate.invoke pt |> Ollama.invoke llm |> (fun text => lift (post text))) kwargs w
  = (match generate (calls w) request with
     | inl msg => Raise (GenerationError msg)
     | inr text => post text
     end, performed w request).
Proof.
  intros Hvars Hfmt request.
  unfold pipe, bind, PromptTemplate.invoke. rewrite Hvars, Hfmt.
  unfold lift, Ok, Ollama.invoke. fold request.
  destruct (generate (calls w) request) as [msg | text]; reflexivity.
Qed.

Lemma analyzer_prompt_renders (model_name job_description : string) :
  exists p, analyzer_prompt model_name job_description = Ok p.
Proof. eexists. vm_compute. reflexivity. Qed.

Lemma suggestion_prompt_renders (model_name : string) (job_details : JobDetails)
    (current_resume : string) :
  exists p, suggestion_prompt model_name job_details current_resume = Ok p.
Proof. eexists. vm_compute. reflexivity. Qed.

Lemma letter_prompt_renders (model_name candidate_name job_title company_name
    key_achievements job_requirements : string) :
  exists p,
    letter_prompt model_name candidate_name job_title company_name key_achievements
      job_requirements = Ok p.
Proof. eexists. vm_compute. reflexivity. Qed.

(** What one run of each generator does. *)
Lemma analyze_run (model_name job_description p : string) (w : World) :
  analyzer_prompt model_name job_description = Ok p ->
  JobDescriptionAnalyzer.analyze (JobDescriptionAnalyzer.__init__ model_name)
    job_description w
  = (match generate (calls w) (mkRequest model_name 0.3%Q p) with
     | inl msg => Raise (GenerationError msg)
     | inr text => PydanticOutputParser.parse (job_details_parser model_name) text
     end, performed w (mkRequest model_name 0.3%Q p)).
Proof.
  intros Hp. unfold JobDescriptionAnalyzer.analyze. rewrite bind_ret.
  exact (chain_run
           (JobDescriptionAnalyzer.prompt (JobDescriptionAnalyzer.__init__ model_name))
           (JobDescriptionAnalyzer.llm (JobDescriptionAnalyzer.__init__ model_name))
           (PydanticOutputParser.parse (job_details_parser model_name))
           [("job_description", PyStr job_description)] w eq_refl Hp).
Qed.

Lemma generate_suggestions_run (model_name : string) (job_details : JobDetails)
    (current_resume p : string) (w : World) :
  suggestion_prompt model_name job_details current_resume = Ok p ->
  ResumeSuggestionGenerator.generate_suggestions
    (ResumeSuggestionGenerator.__init__ model_name) job_details current_resume w
  = (match generate (calls w) (mkRequest model_name 0.5%Q p) with
     | inl msg => Raise (GenerationError msg)
     | inr text =>
         PydanticOutputParser.parse
           (ResumeSuggestionGenerator.output_parser
              (ResumeSuggestionGenerator.__init__ model_name)) text
     end, performed w (mkRequest model_name 0.5%Q p)).
Proof.
  intros Hp. unfold ResumeSuggestionGenerator.generate_suggestions.
  rewrite bind_ret.
  exact (chain_run
           (ResumeSuggestionGenerator.prompt (ResumeSuggestionGenerator.__init__ model_name))
           (ResumeSuggestionGenerator.llm (ResumeSuggestionGenerator.__init__ model_name))
           (PydanticOutputParser.parse
              (ResumeSuggestionGenerator.output_parser
                 (ResumeSuggestionGenerator.__init__ model_name)))
           (ResumeSuggestionGenerator.chain_input job_details current_resume)
           w eq_refl Hp).
Qed.

Lemma generate_run (model_name candidate_name job_title company_name key_achievements
    job_requirements p : string) (w : World) :
  letter_prompt model_name candidate_name job_title company_name key_achievements
    job_requirements = Ok p ->
  CoverLetterGenerator.generate (CoverLetterGenerator.__init__ model_name)
    candidate_name job_title company_name key_achievements job_requirements w
  = (match generate (calls w) (mkRequest model_name 0.7%Q p) with
     | inl msg => Raise (GenerationError msg)
     | inr text => Ok text
     end, performed w (mkRequest model_name 0.7%Q p)).
Proof.
  intros Hp. unfold CoverLetterGenerator.generate. rewrite bind_ret.
  exact (chain_run
           (CoverLetterGenerator.prompt (CoverLetterGenerator.__init__ model_name))
           (CoverLetterGenerator.llm (CoverLetterGenerator.__init__ model_name))
           StrOutputParser.parse
           (CoverLetterGenerator.chain_input candidate_name job_title company_name
              key_achievements job_requirements)
           w eq_refl Hp).
Qed.

Lemma made_call_inj (w w' : World) (r1 r2 : Request) :
  made_call w w' r1 -> made_call w w' r2 -> r1 = r2.
Proof.
  unfold made_call. intros H1 H2. rewrite H1 in H2.
  apply app_inv_head in H2. injection H2 as ->. reflexivity.
Qed.

(** C5: whatever the inputs and the world, each of [analyze],
    [generate_suggestions] and [generate] makes one call to the host, and
    when the host raises a fault on that call the generator raises that
    fault as a [GenerationError]: it is neither caught nor replaced by a
    result. *)
Theorem service_fault_propagates (model_name : string) (w : World) :
  (forall job_description,
     let run :=
       JobDescriptionAnalyzer.analyze (JobDescriptionAnalyzer.__init__ model_name)
         job_description w in
     exists request,
       made_call w (snd run) request
       /\ forall msg,
            generate (calls w) request = inl msg ->
            fst run = Raise (GenerationError msg))
  /\ (forall job_details current_resume,
        let run :=
          ResumeSuggestionGenerator.generate_suggestions
            (ResumeSuggestionGenerator.__init__ model_name) job_details current_resume w in
        exists request,
          made_call w (snd run) request
          /\ forall msg,
               generate (calls w) request = inl msg ->
               fst run = Raise (GenerationError msg))
  /\ (forall candidate_name job_title company_name key_achievements job_requirements,
        let run :=
          CoverLetterGenerator.generate (CoverLetterGenerator.__init__ model_name)
            candidate_name job_title company_name key_achievements job_requirements w in
        exists request,
          made_call w (snd run) request
          /\ forall msg,
               generate (calls w) request = inl msg ->
               fst run = Raise (GenerationError msg)).
Proof.
  repeat split.
  - intros jd run. subst run.
    destruct (analyzer_prompt_renders model_name jd) as [p Hp].
    rewrite (analyze_run w Hp). exists (mkRequest model_name 0.3%Q p).
    split; [reflexivity|]. intros msg Hfault. cbn [fst]. rewrite Hfault. reflexivity.
  - intros jd resume run. subst run.
    destruct (suggestion_prompt_renders model_name jd resume) as [p Hp].
    rewrite (generate_suggestions_run w Hp). exists (mkRequest model_name 0.5%Q p).
    split; [reflexivity|]. intros msg Hfault. cbn [fst]. rewrite Hfault. reflexivity.
  - intros cn jt co ka jr run. subst run.
    destruct (letter_prompt_renders model_name cn jt co ka jr) as [p Hp].
    rewrite (generate_run w Hp). exists (mkRequest model_name 0.7%Q p).
    split; [reflexivity|]. intros msg Hfault. cbn [fst]. rewrite Hfault. reflexivity.
Qed.

(** C7: for any names and any non-empty achievements and requirements, the
    cover-letter generator makes one call and returns the text of the host
    as it is; when the host faults the generator raises that fault as a
    [GenerationError], and it raises nothing else. *)
Theorem cover_letter_is_passed_through (model_name candidate_name job_title
    company_name key_achievements job_requirements : string) (w : World) :
  key_achievements <> EmptyString ->
  job_requirements <> EmptyString ->
  let run :=
    CoverLetterGenerator.generate (CoverLetterGenerator.__init__ model_name)
      candidate_name job_title company_name key_achievements job_requirements w in
  exists request,
    made_call w (snd run) request
    /\ fst run = match generate (calls w) request with
                 | inl msg => Raise (GenerationError msg)
                 | inr text => Ok text
                 end.
Proof.
  intros _ _ run. subst run.
  destruct (letter_prompt_renders model_name candidate_name job_title company_name
              key_achievements job_requirements) as [p Hp].
  rewrite (generate_run w Hp).
  exists (mkRequest model_name 0.7%Q p). split; reflexivity.
Qed.

(** C8: every run of a generator makes exactly one call to the host, at the
    temperature of its feature: 0.3 for the analyzer, 0.5 for the
    suggestions, 0.7 for the cover letter. *)
Theorem temperatures_are_fixed (model_name : string) (w : World) :
  (forall job_description,
     exists p,
       made_call w
         (snd (JobDescriptionAnalyzer.analyze
                 (JobDescriptionAnalyzer.__init__ model_name) job_description w))
         (mkRequest model_name 0.3%Q p))
  /\ (forall job_details current_resume,
        exists p,
          made_call w
            (snd (ResumeSuggestionGenerator.generate_suggestions
                    (ResumeSuggestionGenerator.__init__ model_name)
                    job_details current_resume w))
            (mkRequest model_name 0.5%Q p))
  /\ (forall candidate_name job_title company_name key_achievements job_requirements,
        exists p,
          made_call w
            (snd (CoverLetterGenerator.generate
                    (CoverLetterGenerator.__init__ model_name)
                    candidate_name job_title company_name key_achievements
                    job_requirements w))
            (mkRequest model_name 0.7%Q p)).
Proof.
  repeat split.
  - intros jd. destruct (analyzer_prompt_renders model_name jd) as [p Hp].
    exists p. rewrite (analyze_run w Hp). reflexivity.
  - intros jd resume. destruct (suggestion_prompt_renders model_name jd resume) as [p Hp].
    exists p. rewrite (generate_suggestions_run w Hp). reflexivity.
  - intros cn jt co ka jr.
    destruct (letter_prompt_renders model_name cn jt co ka jr) as [p Hp].
    exists p. rewrite (generate_run w Hp). reflexivity.
Qed.

Lemma append_assoc (a b c : string) : (a ++ b) ++ c = a ++ (b ++ c).
Proof.
  induction a as [|ch a IH]; simpl.
  - reflexivity.
  - rewrite IH. reflexivity.
Qed.

Lemma contains_here (sub after : string) : contains sub (sub ++ after).
Proof. exists EmptyString, after. reflexivity. Qed.

Lemma contains_later (sub s t : string) : contains sub s -> contains sub (t ++ s).
Proof.
  intros [before [after ->]]. exists (t ++ before), after.
  rewrite append_assoc. reflexivity.
Qed.

(** The value bound to a field of the template occurs in what is rendered. *)
Lemma render_contains_field (segs : list Formatter.segment)
    (kwargs : list (string * pyvalue)) (name : string) (v : pyvalue) (p : string) :
  Formatter.render segs kwargs = Ok p ->
  In (Formatter.Field name) segs ->
  dict_get name kwargs = Some v ->
  contains (py_str v) p.
Proof.
  intros Hrender Hin Hget. revert p Hrender.
  induction segs as [|seg rest IH]; intros p Hrender; [contradiction|].
  destruct seg as [text | name']; simpl in Hrender.
  - destruct Hin as [Hseg | Hin]; [discriminate|].
    destruct (Formatter.render rest kwargs) as [e | tail]; [discriminate|].
    injection Hrender as <-. apply contains_later. apply IH; [exact Hin | reflexivity].
  - destruct (dict_get name' kwargs) as [v'|] eqn:Hget'; [|discriminate].
    destruct (Formatter.render rest kwargs) as [e | tail]; [discriminate|].
    injection Hrender as <-.
    destruct Hin as [Hseg | Hin].
    + injection Hseg as ->. rewrite Hget in Hget'. injection Hget' as <-.
      apply contains_here.
    + apply contains_later. apply IH; [exact Hin | reflexivity].
Qed.

(** C6: for the record with title "Senior Python Developer", skills Python
    and PostgreSQL, 5 years of experience and the tool Docker, the prompt
    of the suggestion generator renders, and the title, the skills joined
    by a comma, the number of years and the tool occur in it. *)
Theorem suggestion_prompt_shows_job_details (model_name current_resume : string)
    (soft : list string) :
  exists p,
    suggestion_prompt model_name
      (mkJobDetails "Senior Python Developer" ["Python"; "PostgreSQL"] 5 ["Docker"] soft)
      current_resume = Ok p
    /\ contains "Senior Python Developer" p
    /\ contains "Python, PostgreSQL" p
    /\ contains "5" p
    /\ contains "Docker" p.
Proof.
  destruct (suggestion_prompt_renders model_name
              (mkJobDetails "Senior Python Developer" ["Python"; "PostgreSQL"] 5
                 ["Docker"] soft) current_resume) as [p Hp].
  exists p. split; [exact Hp|].
  unfold suggestion_prompt, PromptTemplate.format, Formatter.format in Hp.
  remember (Formatter.parse _) as parsed eqn:Hparsed in Hp.
  vm_compute in Hparsed. subst parsed.
  repeat split.
  - apply (@render_contains_field _ _ "job_details" (PyStr "Senior Python Developer") _ Hp);
      [simpl; tauto | reflexivity].
  - apply (@render_contains_field _ _ "required_skills"
             (PyStr (join ", " ["Python"; "PostgreSQL"])) _ Hp);
      [simpl; tauto | reflexivity].
  - apply (@render_contains_field _ _ "experience_required" (PyInt 5) _ Hp);
      [simpl; tauto | reflexivity].
  - apply (@render_contains_field _ _ "tools" (PyStr (join ", " ["Docker"])) _ Hp);
      [simpl; tauto | reflexivity].
Qed.

(** C10: two records that differ in [soft_skills] only give, with the same
    resume, the same prompt, and so the same run of the suggestion generator
    from the same world. *)
Theorem suggestion_prompt_ignores_soft_skills (model_name title : string)
    (skills : list string) (years : Z) (tool_list soft soft' : list string)
    (current_resume : string) :
  suggestion_prompt model_name (mkJobDetails title skills years tool_list soft)
      current_resume
    = suggestion_prompt model_name (mkJobDetails title skills years tool_list soft')
        current_resume
  /\ forall w,
       ResumeSuggestionGenerator.generate_suggestions
           (ResumeSuggestionGenerator.__init__ model_name)
           (mkJobDetails title skills years tool_list soft) current_resume w
       = ResumeSuggestionGenerator.generate_suggestions
           (ResumeSuggestionGenerator.__init__ model_name)
           (mkJobDetails title skills years tool_list soft') current_resume w.
Proof. split; [reflexivity | intros w; reflexivity]. Qed.

End Pipelines.

(** ** The driver *)

Section Driver.
Context {L : Library} {H : Host}.

Lemma print_then {A : Type} (line : string) (k : unit -> M A) (w : World) :
  bind (print line) k w = k tt (printed w [line]).
Proof. reflexivity. Qed.

Lemma print_run (line : string) (w : World) :
  print line w = (Ok tt, printed w [line]).
Proof. reflexivity. Qed.

Lemma attempt_then {A B : Type} (m : M A) (k : result A -> M B) (w : World) :
  bind (attempt m) k w = k (fst (m w)) (snd (m w)).
Proof. unfold bind, attempt. destruct (m w) as [r w']. reflexivity. Qed.

Lemma printed_printed (w : World) (a b : list string) :
  printed (printed w a) b = printed w (a ++ b)%list.
Proof. unfold printed. simpl. rewrite app_assoc. reflexivity. Qed.

Lemma for_each_print (prefix : string) (items : list string) (w : World) :
  for_each items (fun item => print (prefix ++ item)) w
  = (Ok tt, printed w (map (fun item => prefix ++ item) items)).
Proof.
  revert w. induction items as [|item items IH]; intros w; simpl.
  - unfold ret, printed. rewrite app_nil_r. destruct w; reflexivity.
  - rewrite print_then, IH, printed_printed. reflexivity.
Qed.

Lemma plain_app (a b : list string) : plain a -> plain b -> plain (a ++ b)%list.
Proof. unfold plain. intros Ha Hb. apply Forall_app. split; assumption. Qed.

Lemma plain_bullets (items : list string) :
  plain (map (fun item => "      • " ++ item) items).
Proof.
  unfold plain. induction items as [|item items IH]; simpl; constructor.
  - reflexivity.
  - exact IH.
Qed.

Lemma plain_without_banner (lines : list string) :
  plain lines -> ~ In success_banner lines.
Proof.
  unfold plain. intros Hplain Hin. rewrite Forall_forall in Hplain.
  specialize (Hplain _ Hin). vm_compute in Hplain. discriminate.
Qed.

Lemma plain_printed (w : World) (lines : list string) :
  plain (console w) -> plain lines -> plain (console (printed w lines)).
Proof. intros Hw Hl. simpl. apply plain_app; assumption. Qed.

Lemma bind_run {A B : Type} (m : M A) (k : A -> M B) (w : World) :
  bind m k w = match m w with
               | (inl e, w') => (inl e, w')
               | (inr a, w') => k a w'
               end.
Proof. reflexivity. Qed.

Lemma calls_performed (w : World) (request : Request) :
  length (calls (performed w request)) = S (length (calls w)).
Proof. simpl. rewrite length_app. simpl. lia. Qed.

(** Each feature makes one call; the first two leave a plain console plain,
    and the third prints nothing when it fails. *)
Lemma feature_1_effect (w : World) :
  length (calls (snd (feature_1 w))) = S (length (calls w))
  /\ (plain (console w) -> plain (console (snd (feature_1 w)))).
Proof.
  destruct (analyzer_prompt_renders "mistral" sample_job_description) as [p Hp].
  unfold feature_1. cbv zeta. rewrite bind_run, (analyze_run w Hp).
  destruct (generate (calls w) _) as [msg | text].
  - split; [apply calls_performed | intros Hw; exact Hw].
  - destruct (PydanticOutputParser.parse _ text) as [e | job_details].
    + split; [apply calls_performed | intros Hw; exact Hw].
    + repeat (rewrite print_then; cbv beta). unfold ret.
      split; [apply calls_performed|].
      intros Hw. cbn [snd].
      repeat (apply plain_printed; [|constructor; [reflexivity | constructor]]).
      exact Hw.
Qed.

Lemma feature_2_effect (job_details : JobDetails) (w : World) :
  length (calls (snd (feature_2 job_details w))) = S (length (calls w))
  /\ (plain (console w) -> plain (console (snd (feature_2 job_details w)))).
Proof.
  destruct (suggestion_prompt_renders "mistral" job_details sample_resume) as [p Hp].
  unfold feature_2. cbv zeta. rewrite bind_run, (generate_suggestions_run w Hp).
  destruct (generate (calls w) _) as [msg | text].
  - split; [apply calls_performed | intros Hw; exact Hw].
  - destruct (PydanticOutputParser.parse _ text) as [e | suggestions].
    + split; [apply calls_performed | intros Hw; exact Hw].
    + rewrite !print_then. cbv beta.
      rewrite bind_run, for_each_print.
      rewrite print_then. cbv beta.
      rewrite bind_run, for_each_print.
      split; [apply calls_performed|].
      intros Hw. cbn [snd].
      apply plain_printed; [|constructor; [reflexivity | constructor]].
      apply plain_printed; [|apply plain_bullets].
      apply plain_printed; [|constructor; [reflexivity | constructor]].
      apply plain_printed; [|apply plain_bullets].
      apply plain_printed; [|constructor; [reflexivity | constructor]].
      apply plain_printed; [|constructor; [reflexivity | constructor]].
      exact Hw.
Qed.

Lemma feature_3_effect (w : World) :
  length (calls (snd (feature_3 w))) = S (length (calls w))
  /\ (forall e, fst (feature_3 w) = inl e -> console (snd (feature_3 w)) = console w).
Proof.
  destruct (letter_prompt_renders "mistral" "John Doe" "Senior Python Developer"
              "Tech Corp" sample_key_achievements
              "Python, Django, FastAPI, PostgreSQL, Redis, Docker, AWS") as [p Hp].
  unfold feature_3. cbv zeta. rewrite bind_run, (generate_run w Hp).
  destruct (generate (calls w) _) as [msg | text].
  - split; [apply calls_performed | intros e _; reflexivity].
  - repeat (rewrite print_then; cbv beta).
    split; [apply calls_performed | intros e He; discriminate He].
Qed.

Lemma plain_start_1 : plain (console start_1).
Proof. repeat constructor. Qed.

Lemma plain_heading (title : string) :
  String.prefix "✅" title = false -> plain (heading title).
Proof. intros Htitle. repeat constructor. exact Htitle. Qed.

(** [main], feature by feature. *)
Lemma main_run :
  main initial_world
  = let r1 := feature_1 start_1 in
    match fst r1 with
    | inl e =>
        (Ok tt,
         printed (snd r1) ["❌ Error in Job Description Analyzer: " ++ exception_str e])
    | inr job_details =>
        let r2 := feature_2 job_details (start_2 (snd r1)) in
        match fst r2 with
        | inl e =>
            (Ok tt,
             printed (snd r2)
               ["❌ Error in Resume Suggestion Generator: " ++ exception_str e])
        | inr _ =>
            let r3 := feature_3 (start_3 (snd r2)) in
            match fst r3 with
            | inl e =>
                (Ok tt,
                 printed (snd r3)
                   ["❌ Error in Cover Letter Generator: " ++ exception_str e])
            | inr _ => (Ok tt, printed (snd r3) closing)
            end
        end
    end.
Proof.
  unfold main.
  repeat (rewrite print_then; cbv beta).
  rewrite attempt_then. cbv beta.
  rewrite !printed_printed.
  change (printed initial_world _) with start_1.
  cbv zeta.
  destruct (feature_1 start_1) as [[e1 | job_details] w1]; cbn [fst snd].
  - reflexivity.
  - repeat (rewrite print_then; cbv beta).
    rewrite attempt_then. cbv beta.
    rewrite !printed_printed.
    change (printed w1 _) with (start_2 w1).
    destruct (feature_2 job_details (start_2 w1)) as [[e2 | []] w2]; cbn [fst snd].
    + reflexivity.
    + repeat (rewrite print_then; cbv beta).
      rewrite attempt_then. cbv beta.
      rewrite !printed_printed.
      change (printed w2 _) with (start_3 w2).
      destruct (feature_3 (start_3 w2)) as [[e3 | []] w3]; cbn [fst snd].
      * reflexivity.
      * repeat (rewrite print_then; cbv beta).
        rewrite print_run, !printed_printed. reflexivity.
Qed.

(** What [main] leaves behind, by the feature that fails first. *)
Lemma main_cases :
  let run := main initial_world in
  let r1 := feature_1 start_1 in
  fst run = Ok tt /\
  match fst r1 with
  | inl _ => length (calls (snd run)) = 1 /\ ~ In success_banner (console (snd run))
  | inr job_details =>
      let r2 := feature_2 job_details (start_2 (snd r1)) in
      match fst r2 with
      | inl _ => length (calls (snd run)) = 2 /\ ~ In success_banner (console (snd run))
      | inr _ =>
          let r3 := feature_3 (start_3 (snd r2)) in
          match fst r3 with
          | inl _ =>
              length (calls (snd run)) = 3 /\ ~ In success_banner (console (snd run))
          | inr _ =>
              length (calls (snd run)) = 3 /\ In success_banner (console (snd run))
          end
      end
  end.
Proof.
  cbv zeta. rewrite main_run. cbv zeta.
  destruct (feature_1_effect start_1) as [Hcalls_1 Hplain_1].
  specialize (Hplain_1 plain_start_1).
  destruct (feature_1 start_1) as [[e1 | job_details] w1]; cbn [fst snd] in *.
  - repeat split.
    + count_calls.
    + apply plain_without_banner, plain_printed; [exact Hplain_1 | repeat constructor].
  - assert (Hstart_2 : plain (console (start_2 w1))).
    { apply plain_printed; [exact Hplain_1 | apply plain_heading; reflexivity]. }
    destruct (feature_2_effect job_details (start_2 w1)) as [Hcalls_2 Hplain_2].
    specialize (Hplain_2 Hstart_2).
    destruct (feature_2 job_details (start_2 w1)) as [[e2 | []] w2]; cbn [fst snd] in *.
    + repeat split.
      * count_calls.
      * apply plain_without_banner, plain_printed; [exact Hplain_2 | repeat constructor].
    + destruct (feature_3_effect (start_3 w2)) as [Hcalls_3 Hquiet_3].
      destruct (feature_3 (start_3 w2)) as [[e3 | []] w3]; cbn [fst snd] in *.
      * repeat split.
        -- count_calls.
        -- apply plain_without_banner, plain_printed; [|repeat constructor].
           rewrite (Hquiet_3 e3 eq_refl).
           apply plain_printed; [exact Hplain_2 | apply plain_heading; reflexivity].
      * repeat split.
        -- count_calls.
        -- simpl. apply in_or_app. right. right. left. reflexivity.
Qed.

(** C9: [main] raises nothing and runs the features in order.  When a
    feature fails, no later feature makes its call (one, two or three calls
    have been made by then) and the success banner is not on the console;
    the banner is on the console if and only if the three features
    succeed. *)
Theorem main_reports_and_stops :
  let run := main initial_world in
  let r1 := feature_1 start_1 in
  fst run = Ok tt
  /\ match fst r1 with
     | inl _ => length (calls (snd run)) = 1 /\ ~ In success_banner (console (snd run))
     | inr job_details =>
         let r2 := feature_2 job_details (start_2 (snd r1)) in
         match fst r2 with
         | inl _ =>
             length (calls (snd run)) = 2 /\ ~ In success_banner (console (snd run))
         | inr _ =>
             let r3 := feature_3 (start_3 (snd r2)) in
             length (calls (snd run)) = 3
             /\ match fst r3 with
                | inl _ => ~ In success_banner (console (snd run))
                | inr _ => In success_banner (console (snd run))
                end
         end
     end
  /\ (In success_banner (console (snd run)) <-> all_features_succeed).
Proof.
  cbv zeta. destruct main_cases as [Hok Hcases]. cbv zeta in Hcases.
  split; [exact Hok|].
  unfold all_features_succeed.
  destruct (feature_1 start_1) as [[e1 | job_details] w1]; cbn [fst snd] in *.
  - split; [exact Hcases|]. destruct Hcases as [_ Hno]. split.
    + intros Hin. contradiction.
    + intros (jd & Habs & _). discriminate Habs.
  - destruct (feature_2 job_details (start_2 w1)) as [[e2 | []] w2] eqn:Hrun_2;
      cbn [fst snd] in *.
    + split; [exact Hcases|]. destruct Hcases as [_ Hno]. split.
      * intros Hin. contradiction.
      * intros (jd & Hjd & Habs & _). injection Hjd as <-.
        rewrite Hrun_2 in Habs. discriminate Habs.
    + destruct (feature_3 (start_3 w2)) as [[e3 | []] w3] eqn:Hrun_3; cbn [fst snd] in *.
      * destruct Hcases as [Hcount Hno]. split; [split; assumption|]. split.
        -- intros Hin. contradiction.
        -- intros (jd & Hjd & _ & Habs). injection Hjd as <-.
           rewrite Hrun_2 in Habs. cbn [snd] in Habs.
           rewrite Hrun_3 in Habs. discriminate Habs.
      * destruct Hcases as [Hcount Hyes]. split; [split; assumption|]. split.
        -- intros _. exists job_details. rewrite Hrun_2. cbn [fst snd].
           rewrite Hrun_3. repeat split.
        -- intros _. exact Hyes.
Qed.

End Driver.

(** * Further properties *)

(** ** Validation, of both models *)

Section Replies.
Context {L : Library}.

(** A failed validation is what a parser raises, whatever its model. *)
Lemma parser_raises {A : Type} (parser : PydanticOutputParser.t A) (text : string)
    (v : json) (e : string * error_type) :
  parse_json_markdown text = Some v ->
  fails_with e (@model_validate A (PydanticOutputParser.pydantic_object parser) L v) ->
  exists errors,
    PydanticOutputParser.parse parser text
      = Raise (ParseValidationError (validation_error errors))
    /\ In e errors.
Proof.
  intros Hdec [errors [Hval Hin]]. exists errors. split; [|exact Hin].
  unfold PydanticOutputParser.parse. rewrite Hdec, Hval. reflexivity.
Qed.

Lemma required_list_not_array d name (v : json) :
  dict_get name d = Some v ->
  ~ is_array v ->
  fails_with (name, list_type) (Pydantic.required_list d name).
Proof.
  intros Hget Hv. unfold Pydantic.required_list. rewrite Hget.
  exists [(name, list_type)]. split; [|left; reflexivity].
  destruct v; simpl; try reflexivity. contradiction Hv. exact I.
Qed.

Lemma required_list_ext (d d' : list (string * json)) (name : string) :
  dict_get name d = dict_get name d' ->
  Pydantic.required_list d name = Pydantic.required_list d' name.
Proof. intros Hget. unfold Pydantic.required_list. rewrite Hget. reflexivity. Qed.

Lemma required_ext {A : Type} (d d' : list (string * json)) (name : string)
    (validator : json -> error_type + A) :
  dict_get name d = dict_get name d' ->
  Pydantic.required d name validator = Pydantic.required d' name validator.
Proof. intros Hget. unfold Pydantic.required. rewrite Hget. reflexivity. Qed.

(** X1: a reply that decodes to an object carrying the three fields of
    [ResumeSuggestions] with their declared types is parsed, and the record
    holds the values of the input; the summary is any text. *)
Theorem suggestions_round_trip (model_name text : string) (d : list (string * json))
    (r : ResumeSuggestions) :
  parse_json_markdown text = Some (JDict d) ->
  carries_suggestions d r ->
  PydanticOutputParser.parse (suggestions_parser model_name) text = Ok r.
Proof.
  intros Hdec (Hm & Hi & Ho). destruct r as [missing points summary].
  unfold PydanticOutputParser.parse. rewrite Hdec. simpl.
  rewrite (required_list_present _ _ _ Hm).
  rewrite (required_list_present _ _ _ Hi).
  rewrite (required_present _ _ Pydantic.validate_str Ho eq_refl).
  reflexivity.
Qed.

(** X2: a suggestion reply from which one of the three fields is absent is
    not parsed: the parser raises its validation error, naming the field as
    missing. *)
Theorem missing_suggestion_field_is_rejected (model_name text : string)
    (d : list (string * json)) (name : string) :
  parse_json_markdown text = Some (JDict d) ->
  In name suggestion_fields ->
  dict_get name d = None ->
  exists errors,
    PydanticOutputParser.parse (suggestions_parser model_name) text
      = Raise (ParseValidationError (validation_error errors))
    /\ In (name, missing) errors.
Proof.
  intros Hdec Hin Hget.
  apply parser_raises with (v := JDict d); [exact Hdec|].
  change (fails_with (name, missing) (ResumeSuggestions_validate L (JDict d))).
  unfold ResumeSuggestions_validate. simpl in Hin.
  destruct Hin as [<- | [<- | [<- | []]]].
  - do 2 apply ap_fails_left. apply ap_fails_right, required_list_absent, Hget.
  - apply ap_fails_left. apply ap_fails_right, required_list_absent, Hget.
  - apply ap_fails_right, required_absent, Hget.
Qed.

(** X3: a job reply in which a field declared [List[str]] holds anything but
    an array (one comma-joined string, for one) is not parsed: the parser
    raises its validation error, with a list-type line for the field. *)
Theorem job_list_field_must_be_array (model_name text : string)
    (d : list (string * json)) (name : string) (v : json) :
  parse_json_markdown text = Some (JDict d) ->
  In name (list_fields JobDetails_schema) ->
  dict_get name d = Some v ->
  ~ is_array v ->
  exists errors,
    PydanticOutputParser.parse (job_details_parser model_name) text
      = Raise (ParseValidationError (validation_error errors))
    /\ In (name, list_type) errors.
Proof.
  intros Hdec Hin Hget Hv.
  apply parser_raises with (v := JDict d); [exact Hdec|].
  change (fails_with (name, list_type) (JobDetails_validate L (JDict d))).
  unfold JobDetails_validate. simpl in Hin.
  destruct Hin as [<- | [<- | [<- | []]]].
  - do 3 apply ap_fails_left. apply ap_fails_right.
    apply required_list_not_array with (v := v); assumption.
  - apply ap_fails_left. apply ap_fails_right.
    apply required_list_not_array with (v := v); assumption.
  - apply ap_fails_right. apply required_list_not_array with (v := v); assumption.
Qed.

(** X4: the same for the two list fields of a suggestion reply. *)
Theorem suggestion_list_field_must_be_array (model_name text : string)
    (d : list (string * json)) (name : string) (v : json) :
  parse_json_markdown text = Some (JDict d) ->
  In name (list_fields ResumeSuggestions_schema) ->
  dict_get name d = Some v ->
  ~ is_array v ->
  exists errors,
    PydanticOutputParser.parse (suggestions_parser model_name) text
      = Raise (ParseValidationError (validation_error errors))
    /\ In (name, list_type) errors.
Proof.
  intros Hdec Hin Hget Hv.
  apply parser_raises with (v := JDict d); [exact Hdec|].
  change (fails_with (name, list_type) (ResumeSuggestions_validate L (JDict d))).
  unfold ResumeSuggestions_validate. simpl in Hin.
  destruct Hin as [<- | [<- | []]].
  - do 2 apply ap_fails_left. apply ap_fails_right.
    apply required_list_not_array with (v := v); assumption.
  - apply ap_fails_left. apply ap_fails_right.
    apply required_list_not_array with (v := v); assumption.
Qed.

(** X5: a reply in which the decoder of the output parser finds no value,
    or finds a value that is no JSON object (an array, a string, a number,
    null), is parsed by neither parser: each raises its validation error.
    Which texts the decoder reads a value from is the library's matter. *)
Theorem reply_must_be_object (model_name text : string) :
  ~ is_object (parse_json_markdown text) ->
  (exists cause,
     PydanticOutputParser.parse (job_details_parser model_name) text
       = Raise (ParseValidationError cause))
  /\ (exists cause,
        PydanticOutputParser.parse (suggestions_parser model_name) text
          = Raise (ParseValidationError cause)).
Proof.
  intros Hno. unfold PydanticOutputParser.parse.
  destruct (parse_json_markdown text) as [v|].
  - destruct v; simpl in *;
      solve [ split; eexists; reflexivity | contradiction Hno; exact I ].
  - split; eexists; reflexivity.
Qed.

(** X6: what the job parser makes of a reply depends on the values under the
    five field names and on nothing else: two replies that decode to objects
    with the same five lookups, whatever the order of their keys and
    whatever other keys they have, are parsed alike. *)
Theorem parse_reads_declared_fields_only (model_name text text' : string)
    (d d' : list (string * json)) :
  parse_json_markdown text = Some (JDict d) ->
  parse_json_markdown text' = Some (JDict d') ->
  (forall name, In name mandatory_fields -> dict_get name d = dict_get name d') ->
  PydanticOutputParser.parse (job_details_parser model_name) text
    = PydanticOutputParser.parse (job_details_parser model_name) text'.
Proof.
  intros Hdec Hdec' Hsame.
  unfold PydanticOutputParser.parse. rewrite Hdec, Hdec'. simpl.
  rewrite (required_ext d d' "job_title"), (required_list_ext d d' "required_skills"),
    (required_ext d d' "experience_required"), (required_list_ext d d' "tools"),
    (required_list_ext d d' "soft_skills");
    solve [ reflexivity | apply Hsame; simpl; tauto ].
Qed.

End Replies.

(** ** The generators, run by run *)

Section Generators.
Context {L : Library} {H : Host}.

(** X7: when the host answers the call of [analyze] with a text, what
    [analyze] returns or raises is what its parser makes of that text:
    nothing is retried, repaired or defaulted. *)
Theorem analyze_returns_parsed_reply (model_name job_description text : string)
    (w : World) (request : Request) :
  let run :=
    JobDescriptionAnalyzer.analyze (JobDescriptionAnalyzer.__init__ model_name)
      job_description w in
  made_call w (snd run) request ->
  generate (calls w) request = inr text ->
  fst run = PydanticOutputParser.parse (job_details_parser model_name) text.
Proof.
  intros run Hcall Hreply. subst run.
  destruct (analyzer_prompt_renders model_name job_description) as [p Hp].
  rewrite (analyze_run w Hp) in *. simpl in *.
  rewrite <- (made_call_inj Hcall eq_refl), Hreply. reflexivity.
Qed.

(** X8: the same for [generate_suggestions] and its parser. *)
Theorem generate_suggestions_returns_parsed_reply (model_name : string)
    (job_details : JobDetails) (current_resume text : string) (w : World)
    (request : Request) :
  let run :=
    ResumeSuggestionGenerator.generate_suggestions
      (ResumeSuggestionGenerator.__init__ model_name) job_details current_resume w in
  made_call w (snd run) request ->
  generate (calls w) request = inr text ->
  fst run = PydanticOutputParser.parse (suggestions_parser model_name) text.
Proof.
  intros run Hcall Hreply. subst run.
  destruct (suggestion_prompt_renders model_name job_details current_resume) as [p Hp].
  rewrite (generate_suggestions_run w Hp) in *. simpl in *.
  rewrite <- (made_call_inj Hcall eq_refl), Hreply. reflexivity.
Qed.

Lemma parse_raises_validation {A : Type} (parser : PydanticOutputParser.t A)
    (text : string) (e : exception) :
  PydanticOutputParser.parse parser text = inl e -> generation_or_validation e.
Proof.
  unfold PydanticOutputParser.parse.
  destruct (parse_json_markdown text) as [v|]; [|intros [= <-]; exact I].
  destruct (model_validate L v); [intros [= <-]; exact I | discriminate].
Qed.

(** X9: whatever the job description, the record and the resume, braces in
    them included, [analyze] and [generate_suggestions] raise a fault of the
    host or a validation error of their parser, and no formatting error. *)
Theorem generators_raise_two_kinds (model_name : string) (w : World) :
  (forall job_description e,
     fst (JobDescriptionAnalyzer.analyze (JobDescriptionAnalyzer.__init__ model_name)
            job_description w) = inl e ->
     generation_or_validation e)
  /\ (forall job_details current_resume e,
        fst (ResumeSuggestionGenerator.generate_suggestions
               (ResumeSuggestionGenerator.__init__ model_name)
               job_details current_resume w) = inl e ->
        generation_or_validation e).
Proof.
  split.
  - intros jd e. destruct (analyzer_prompt_renders model_name jd) as [p Hp].
    rewrite (analyze_run w Hp). cbn [fst].
    destruct (generate (calls w) _) as [msg | text].
    + intros [= <-]. exact I.
    + apply parse_raises_validation.
  - intros jd resume e.
    destruct (suggestion_prompt_renders model_name jd resume) as [p Hp].
    rewrite (generate_suggestions_run w Hp). cbn [fst].
    destruct (generate (calls w) _) as [msg | text].
    + intros [= <-]. exact I.
    + apply parse_raises_validation.
Qed.

(** X10: the generators print nothing: whatever they return or raise, the
    console is as they found it. *)
Theorem generators_leave_console (model_name : string) (w : World) :
  (forall job_description,
     console (snd (JobDescriptionAnalyzer.analyze
                     (JobDescriptionAnalyzer.__init__ model_name) job_description w))
       = console w)
  /\ (forall job_details current_resume,
        console (snd (ResumeSuggestionGenerator.generate_suggestions
                        (ResumeSuggestionGenerator.__init__ model_name)
                        job_details current_resume w))
          = console w)
  /\ (forall candidate_name job_title company_name key_achievements job_requirements,
        console (snd (CoverLetterGenerator.generate
                        (CoverLetterGenerator.__init__ model_name)
                        candidate_name job_title company_name key_achievements
                        job_requirements w))
          = console w).
Proof.
  repeat split.
  - intros jd. destruct (analyzer_prompt_renders model_name jd) as [p Hp].
    rewrite (analyze_run w Hp). reflexivity.
  - intros jd resume. destruct (suggestion_prompt_renders model_name jd resume) as [p Hp].
    rewrite (generate_suggestions_run w Hp). reflexivity.
  - intros cn jt co ka jr.
    destruct (letter_prompt_renders model_name cn jt co ka jr) as [p Hp].
    rewrite (generate_run w Hp). reflexivity.
Qed.

(** The three prompts, spelled out. *)
Lemma analyzer_prompt_text (model_name job_description : string) :
  analyzer_prompt model_name job_description
  = Ok ("Analyze the following job description and extract structured information.

Job Description:
"
       ++ job_description
       ++ "

"
       ++ get_format_instructions JobDetails_schema
       ++ "

Provide the extracted information in the specified JSON format.").
Proof. reflexivity. Qed.

Lemma suggestion_prompt_text (model_name : string) (job_details : JobDetails)
    (current_resume : string) :
  suggestion_prompt model_name job_details current_resume
  = Ok ("Based on the job requirements and current resume, generate improvement suggestions.

Job Requirements:
- Title: "
       ++ job_title job_details
       ++ "
- Skills needed: "
       ++ join ", " (required_skills job_details)
       ++ "
- Experience: "
       ++ py_str (PyInt (experience_required job_details))
       ++ " years
- Tools: "
       ++ join ", " (tools job_details)
       ++ "

Current Resume:
"
       ++ current_resume
       ++ "

"
       ++ get_format_instructions ResumeSuggestions_schema
       ++ "

Provide structured suggestions to improve the resume for this job position.").
Proof. reflexivity. Qed.

Lemma letter_prompt_text (model_name candidate_name job_title company_name
    key_achievements job_requirements : string) :
  letter_prompt model_name candidate_name job_title company_name key_achievements
    job_requirements
  = Ok ("Write a professional cover letter for the following position:

Candidate Name: "
       ++ candidate_name
       ++ "
Job Title: "
       ++ job_title
       ++ "
Company: "
       ++ company_name
       ++ "

Key Achievements:
"
       ++ key_achievements
       ++ "

Job Requirements:
"
       ++ job_requirements
       ++ "

Instructions:
- Write a compelling cover letter (300-400 words)
- Highlight relevant experience
- Match key requirements from job description
- Use professional tone
- Include specific examples from achievements
- Output only the cover letter text, no JSON or formatting markers

Cover Letter:").
Proof. reflexivity. Qed.

(** X20: the call a generator makes carries the prompt rendered from the
    inputs of that very run, under the model name the generator was built
    with; earlier calls and the console have no part in it. *)
Theorem generators_send_their_prompt (model_name : string) (w : World) :
  (forall job_description p,
     analyzer_prompt model_name job_description = Ok p ->
     made_call w
       (snd (JobDescriptionAnalyzer.analyze
               (JobDescriptionAnalyzer.__init__ model_name) job_description w))
       (mkRequest model_name 0.3%Q p))
  /\ (forall job_details current_resume p,
        suggestion_prompt model_name job_details current_resume = Ok p ->
        made_call w
          (snd (ResumeSuggestionGenerator.generate_suggestions
                  (ResumeSuggestionGenerator.__init__ model_name)
                  job_details current_resume w))
          (mkRequest model_name 0.5%Q p))
  /\ (forall candidate_name job_title company_name key_achievements job_requirements p,
        letter_prompt model_name candidate_name job_title company_name key_achievements
          job_requirements = Ok p ->
        made_call w
          (snd (CoverLetterGenerator.generate
                  (CoverLetterGenerator.__init__ model_name)
                  candidate_name job_title company_name key_achievements
                  job_requirements w))
          (mkRequest model_name 0.7%Q p)).
Proof.
  repeat split.
  - intros jd p Hp. rewrite (analyze_run w Hp). reflexivity.
  - intros jd resume p Hp. rewrite (generate_suggestions_run w Hp). reflexivity.
  - intros cn jt co ka jr p Hp. rewrite (generate_run w Hp). reflexivity.
Qed.

End Generators.

(** X11: the prompt of the analyzer is fixed text around its two values:
    there are three texts, the same for every library, model name and job
    description, between which the description and the format instructions
    of [JobDetails] stand as they are, in this order. *)
Theorem analyzer_prompt_frames_description :
  exists opening_text middle_text closing_text,
    forall (L : Library) (model_name job_description : string),
      analyzer_prompt model_name job_description
      = Ok (opening_text ++ job_description ++ middle_text
            ++ get_format_instructions JobDetails_schema ++ closing_text).
Proof.
  do 3 eexists. intros L model_name job_description.
  apply analyzer_prompt_text.
Qed.

(** X12: the prompt of the suggestion generator is fixed text around its
    six values: the title, the skills joined by a comma and a space, the
    years in decimal, the tools joined likewise, the resume and the format
    instructions of [ResumeSuggestions] stand in it as they are, in this
    order, and the text between them is the same for every record and
    resume. *)
Theorem suggestion_prompt_frames_values :
  exists t0 t1 t2 t3 t4 t5 t6,
    forall (L : Library) (model_name : string) (job_details : JobDetails)
           (current_resume : string),
      suggestion_prompt model_name job_details current_resume
      = Ok (t0 ++ job_title job_details
            ++ t1 ++ join ", " (required_skills job_details)
            ++ t2 ++ py_str (PyInt (experience_required job_details))
            ++ t3 ++ join ", " (tools job_details)
            ++ t4 ++ current_resume
            ++ t5 ++ get_format_instructions ResumeSuggestions_schema
            ++ t6).
Proof.
  do 7 eexists. intros L model_name job_details current_resume.
  apply suggestion_prompt_text.
Qed.

(** X13: the prompt of the cover-letter generator is fixed text around its
    five inputs, which stand in it as they are, in the order name, title,
    company, achievements, requirements. *)
Theorem letter_prompt_frames_inputs :
  exists t0 t1 t2 t3 t4 t5,
    forall model_name candidate_name job_title company_name key_achievements
           job_requirements : string,
      letter_prompt model_name candidate_name job_title company_name key_achievements
        job_requirements
      = Ok (t0 ++ candidate_name ++ t1 ++ job_title ++ t2 ++ company_name
            ++ t3 ++ key_achievements ++ t4 ++ job_requirements ++ t5).
Proof.
  do 6 eexists.
  intros model_name candidate_name job_title company_name key_achievements
    job_requirements.
  apply letter_prompt_text.
Qed.

(** ** The driver, call by call and line by line *)

Section Report.
Context {L : Library} {H : Host}.

Lemma feature_1_run (w : World) :
  feature_1 w
  = let run :=
      JobDescriptionAnalyzer.analyze (JobDescriptionAnalyzer.__init__ "mistral")
        sample_job_description w in
    match fst run with
    | inl e => (inl e, snd run)
    | inr job_details => (Ok job_details, printed (snd run) (details_lines job_details))
    end.
Proof.
  unfold feature_1. cbv zeta. rewrite bind_run.
  destruct (JobDescriptionAnalyzer.analyze _ _ w) as [[e | job_details] w'];
    cbn [fst snd]; [reflexivity|].
  repeat (rewrite print_then; cbv beta). unfold ret.
  rewrite !printed_printed. reflexivity.
Qed.

Lemma feature_2_run (job_details : JobDetails) (w : World) :
  feature_2 job_details w
  = let run :=
      ResumeSuggestionGenerator.generate_suggestions
        (ResumeSuggestionGenerator.__init__ "mistral") job_details sample_resume w in
    match fst run with
    | inl e => (inl e, snd run)
    | inr suggestions => (Ok tt, printed (snd run) (suggestion_lines suggestions))
    end.
Proof.
  unfold feature_2. cbv zeta. rewrite bind_run.
  destruct (ResumeSuggestionGenerator.generate_suggestions _ _ _ w)
    as [[e | suggestions] w']; cbn [fst snd]; [reflexivity|].
  rewrite !print_then. cbv beta.
  rewrite bind_run, for_each_print.
  rewrite print_then. cbv beta.
  rewrite bind_run, for_each_print.
  rewrite print_run, !printed_printed.
  unfold suggestion_lines, bullet. rewrite <- !app_assoc. reflexivity.
Qed.

Lemma feature_3_run (w : World) :
  feature_3 w
  = let run :=
      CoverLetterGenerator.generate (CoverLetterGenerator.__init__ "mistral")
        "John Doe" "Senior Python Developer" "Tech Corp" sample_key_achievements
        "Python, Django, FastAPI, PostgreSQL, Redis, Docker, AWS" w in
    match fst run with
    | inl e => (inl e, snd run)
    | inr cover_letter => (Ok tt, printed (snd run) (letter_lines cover_letter))
    end.
Proof.
  unfold feature_3. cbv zeta. rewrite bind_run.
  destruct (CoverLetterGenerator.generate _ _ _ _ _ _ w) as [[e | cover_letter] w'];
    cbn [fst snd]; [reflexivity|].
  repeat (rewrite print_then; cbv beta).
  rewrite print_run, !printed_printed. reflexivity.
Qed.

Lemma feature_1_calls (w : World) (p : string) :
  analyzer_prompt "mistral" sample_job_description = Ok p ->
  calls (snd (feature_1 w)) = (calls w ++ [call_1 p])%list.
Proof.
  intros Hp. rewrite feature_1_run, (analyze_run w Hp). cbv zeta. cbn [fst snd].
  destruct (match generate (calls w) _ with inl _ => _ | inr _ => _ end); reflexivity.
Qed.

Lemma feature_2_calls (job_details : JobDetails) (w : World) (p : string) :
  suggestion_prompt "mistral" job_details sample_resume = Ok p ->
  calls (snd (feature_2 job_details w)) = (calls w ++ [call_2 p])%list.
Proof.
  intros Hp. rewrite feature_2_run, (generate_suggestions_run w Hp). cbv zeta.
  cbn [fst snd].
  destruct (match generate (calls w) _ with inl _ => _ | inr _ => _ end); reflexivity.
Qed.

Lemma feature_3_calls (w : World) (p : string) :
  driver_letter_prompt = Ok p ->
  calls (snd (feature_3 w)) = (calls w ++ [call_3 p])%list.
Proof.
  intros Hp. rewrite feature_3_run, (generate_run w Hp). cbv zeta. cbn [fst snd].
  destruct (match generate (calls w) _ with inl _ => _ | inr _ => _ end); reflexivity.
Qed.

Lemma feature_2_extends (job_details : JobDetails) (w : World) :
  extends w (snd (feature_2 job_details w)).
Proof.
  destruct (suggestion_prompt_renders "mistral" job_details sample_resume) as [p Hp].
  rewrite feature_2_run, (generate_suggestions_run w Hp). cbv zeta. cbn [fst snd].
  destruct (match generate (calls w) _ with inl _ => _ | inr _ => _ end) as [e | s].
  - exists []. simpl. rewrite app_nil_r. reflexivity.
  - exists (suggestion_lines s). reflexivity.
Qed.

Lemma feature_3_extends (w : World) : extends w (snd (feature_3 w)).
Proof.
  destruct (letter_prompt_renders "mistral" "John Doe" "Senior Python Developer"
              "Tech Corp" sample_key_achievements
              "Python, Django, FastAPI, PostgreSQL, Redis, Docker, AWS") as [p Hp].
  rewrite feature_3_run, (generate_run w Hp). cbv zeta. cbn [fst snd].
  destruct (match generate (calls w) _ with inl _ => _ | inr _ => _ end) as [e | text].
  - exists []. simpl. rewrite app_nil_r. reflexivity.
  - exists (letter_lines text). reflexivity.
Qed.

Lemma extends_printed (w w' : World) (lines : list string) :
  extends w w' -> extends w (printed w' lines).
Proof.
  intros [more Hmore]. exists (more ++ lines)%list. simpl.
  rewrite Hmore, app_assoc. reflexivity.
Qed.

Lemma extends_trans (w w' w'' : World) : extends w w' -> extends w' w'' -> extends w w''.
Proof.
  intros [a Ha] [b Hb]. exists (a ++ b)%list. rewrite Hb, Ha, app_assoc. reflexivity.
Qed.

Lemma extends_refl (w : World) : extends w w.
Proof. exists []. rewrite app_nil_r. reflexivity. Qed.

(** The calls [main] has made when it returns, by the feature that fails
    first. *)
Lemma main_calls :
  exists p1 p3,
    analyzer_prompt "mistral" sample_job_description = Ok p1
    /\ driver_letter_prompt = Ok p3
    /\ match fst (feature_1 start_1) with
       | inl _ => calls (snd (main initial_world)) = [call_1 p1]
       | inr job_details =>
           exists p2,
             suggestion_prompt "mistral" job_details sample_resume = Ok p2
             /\ match fst (feature_2 job_details (start_2 (snd (feature_1 start_1)))) with
                | inl _ => calls (snd (main initial_world)) = [call_1 p1; call_2 p2]
                | inr _ =>
                    calls (snd (main initial_world)) = [call_1 p1; call_2 p2; call_3 p3]
                end
       end.
Proof.
  destruct (analyzer_prompt_renders "mistral" sample_job_description) as [p1 Hp1].
  destruct (letter_prompt_renders "mistral" "John Doe" "Senior Python Developer"
              "Tech Corp" sample_key_achievements
              "Python, Django, FastAPI, PostgreSQL, Redis, Docker, AWS") as [p3 Hp3].
  exists p1, p3. split; [exact Hp1|]. split; [exact Hp3|].
  rewrite main_run. cbv zeta.
  pose proof (feature_1_calls start_1 Hp1) as Hcalls_1.
  destruct (feature_1 start_1) as [[e1 | job_details] w1]; cbn [fst snd] in *.
  - exact Hcalls_1.
  - destruct (suggestion_prompt_renders "mistral" job_details sample_resume) as [p2 Hp2].
    exists p2. split; [exact Hp2|].
    pose proof (feature_2_calls (start_2 w1) Hp2) as Hcalls_2.
    cbn [calls start_2 printed] in Hcalls_2. rewrite Hcalls_1 in Hcalls_2.
    pose proof (feature_3_calls (start_3 (snd (feature_2 job_details (start_2 w1)))) Hp3)
      as Hcalls_3.
    cbn [calls start_3 printed] in Hcalls_3. rewrite Hcalls_2 in Hcalls_3.
    destruct (feature_2 job_details (start_2 w1)) as [[e2 | []] w2]; cbn [fst snd] in *.
    + exact Hcalls_2.
    + destruct (fst (feature_3 (start_3 w2))) as [e3 | []]; exact Hcalls_3.
Qed.

(** X14: the calls [main] makes are, in order, a first part of: one at 0.3,
    one at 0.5, one at 0.7, all to the model "mistral"; there is at least
    one and at most three. *)
Theorem main_calls_in_order :
  exists n,
    1 <= n <= 3
    /\ settings (calls (snd (main initial_world)))
       = firstn n [("mistral", 0.3%Q); ("mistral", 0.5%Q); ("mistral", 0.7%Q)].
Proof.
  destruct main_calls as (p1 & p3 & _ & _ & Hcases).
  destruct (fst (feature_1 start_1)) as [e1 | job_details].
  - exists 1. rewrite Hcases. split; [lia | reflexivity].
  - destruct Hcases as (p2 & _ & Hcases).
    destruct (fst (feature_2 _ _)) as [e2 | u].
    + exists 2. rewrite Hcases. split; [lia | reflexivity].
    + exists 3. rewrite Hcases. split; [lia | reflexivity].
Qed.

(** X15: when the first feature returns a record, the second call of [main]
    carries the prompt of the suggestion generator for that record and the
    sample resume: what the analyzer extracted is what the suggestions are
    asked about. *)
Theorem main_feeds_details_to_suggestions (job_details : JobDetails) :
  fst (feature_1 start_1) = inr job_details ->
  exists p,
    suggestion_prompt "mistral" job_details sample_resume = Ok p
    /\ nth_error (calls (snd (main initial_world))) 1 = Some (call_2 p).
Proof.
  intros Hfirst. destruct main_calls as (p1 & p3 & _ & _ & Hcases).
  rewrite Hfirst in Hcases. destruct Hcases as (p2 & Hp2 & Hcases).
  exists p2. split; [exact Hp2|].
  destruct (fst (feature_2 _ _)) as [e2 | u]; rewrite Hcases; reflexivity.
Qed.

(** X17: when a feature fails, the last line on the console is the error
    line of that feature, ending in the text of the exception. *)
Theorem main_reports_failure :
  let final := snd (main initial_world) in
  let r1 := feature_1 start_1 in
  (forall e,
     fst r1 = inl e ->
     last (console final) EmptyString
       = "❌ Error in Job Description Analyzer: " ++ exception_str e)
  /\ (forall job_details e,
        fst r1 = inr job_details ->
        fst (feature_2 job_details (start_2 (snd r1))) = inl e ->
        last (console final) EmptyString
          = "❌ Error in Resume Suggestion Generator: " ++ exception_str e)
  /\ (forall job_details e,
        fst r1 = inr job_details ->
        let r2 := feature_2 job_details (start_2 (snd r1)) in
        fst r2 = inr tt ->
        fst (feature_3 (start_3 (snd r2))) = inl e ->
        last (console final) EmptyString
          = "❌ Error in Cover Letter Generator: " ++ exception_str e).
Proof.
  cbv zeta. rewrite main_run. cbv zeta. repeat split.
  - intros e ->. cbn [snd console printed]. apply last_last.
  - intros jd e -> ->. cbn [snd console printed]. apply last_last.
  - intros jd e -> -> ->. cbn [snd console printed]. apply last_last.
Qed.

(** X19: what the first feature printed stays: when it returns a record,
    the console [main] leaves starts with the opening lines, the heading of
    the first feature and the six lines of the record, whatever the later
    features do. *)
Theorem main_keeps_details (job_details : JobDetails) :
  fst (feature_1 start_1) = inr job_details ->
  exists rest,
    console (snd (main initial_world))
    = (opening ++ heading "FEATURE 1: JOB DESCRIPTION ANALYZER"
         ++ details_lines job_details ++ rest)%list.
Proof.
  intros Hfirst.
  assert (Hshown : console (snd (feature_1 start_1))
                   = (console start_1 ++ details_lines job_details)%list).
  { destruct (analyzer_prompt_renders "mistral" sample_job_description) as [p Hp].
    rewrite feature_1_run in Hfirst |- *. rewrite (analyze_run start_1 Hp) in Hfirst |- *.
    cbv zeta in *. cbn [fst snd] in *.
    destruct (match generate (calls start_1) _ with inl _ => _ | inr _ => _ end)
      as [e | jd]; [discriminate|].
    injection Hfirst as ->. reflexivity. }
  assert (Hlater : extends (snd (feature_1 start_1)) (snd (main initial_world))).
  { rewrite main_run. cbv zeta. rewrite Hfirst.
    pose proof (feature_2_extends job_details (start_2 (snd (feature_1 start_1)))) as H2.
    assert (Hstart_2 : extends (snd (feature_1 start_1))
                         (snd (feature_2 job_details (start_2 (snd (feature_1 start_1)))))).
    { eapply extends_trans; [|exact H2]. apply extends_printed, extends_refl. }
    destruct (fst (feature_2 _ _)) as [e2 | u]; cbn [snd].
    - apply extends_printed. exact Hstart_2.
    - pose proof (feature_3_extends
                    (start_3 (snd (feature_2 job_details
                                     (start_2 (snd (feature_1 start_1))))))) as H3.
      assert (Hstart_3 : extends (snd (feature_1 start_1))
                (snd (feature_3 (start_3 (snd (feature_2 job_details
                                                 (start_2 (snd (feature_1 start_1))))))))).
      { eapply extends_trans; [exact Hstart_2|].
        eapply extends_trans; [|exact H3]. apply extends_printed, extends_refl. }
      destruct (fst (feature_3 _)) as [e3 | u']; cbn [snd];
        apply extends_printed; exact Hstart_3. }
  destruct Hlater as [rest Hrest]. exists rest.
  rewrite Hrest, Hshown. cbn [console start_1 printed initial_world app].
  rewrite <- !app_assoc. reflexivity.
Qed.

(** X18: when the host answers the three calls with texts, the first one
    parsed to a record and the second to suggestions, [main] makes exactly
    these three calls and leaves on the console, in order: the opening
    lines, then under the heading of each feature the lines of its result
    (the record, the suggestions with one bullet per item, the letter as it
    came, between two rules), then the closing lines with the banner. *)
Theorem main_shows_results (p1 p2 p3 t1 t2 t3 : string) (job_details : JobDetails)
    (suggestions : ResumeSuggestions) :
  analyzer_prompt "mistral" sample_job_description = Ok p1 ->
  generate [] (call_1 p1) = inr t1 ->
  PydanticOutputParser.parse (job_details_parser "mistral") t1 = Ok job_details ->
  suggestion_prompt "mistral" job_details sample_resume = Ok p2 ->
  generate [call_1 p1] (call_2 p2) = inr t2 ->
  PydanticOutputParser.parse (suggestions_parser "mistral") t2 = Ok suggestions ->
  driver_letter_prompt = Ok p3 ->
  generate [call_1 p1; call_2 p2] (call_3 p3) = inr t3 ->
  main initial_world
  = (Ok tt,
     mkWorld [call_1 p1; call_2 p2; call_3 p3]
       (opening
        ++ heading "FEATURE 1: JOB DESCRIPTION ANALYZER" ++ details_lines job_details
        ++ heading "FEATURE 2: RESUME IMPROVEMENT SUGGESTIONS"
        ++ suggestion_lines suggestions
        ++ heading "FEATURE 3: COVER LETTER GENERATOR" ++ letter_lines t3
        ++ closing)%list).
Proof.
  intros Hp1 Hreply_1 Hparse_1 Hp2 Hreply_2 Hparse_2 Hp3 Hreply_3.
  set (w1 := printed (performed start_1 (call_1 p1)) (details_lines job_details)).
  set (w2 := printed (performed (start_2 w1) (call_2 p2)) (suggestion_lines suggestions)).
  set (w3 := printed (performed (start_3 w2) (call_3 p3)) (letter_lines t3)).
  assert (Hrun_1 : feature_1 start_1 = (inr job_details, w1)).
  { rewrite feature_1_run, (analyze_run start_1 Hp1). cbv zeta. cbn [fst snd].
    change (generate (calls start_1) _) with (generate [] (call_1 p1)).
    rewrite Hreply_1, Hparse_1. reflexivity. }
  assert (Hrun_2 : feature_2 job_details (start_2 w1) = (inr tt, w2)).
  { rewrite feature_2_run, (generate_suggestions_run (start_2 w1) Hp2).
    cbv zeta. cbn [fst snd].
    change (generate (calls (start_2 w1)) _) with (generate [call_1 p1] (call_2 p2)).
    rewrite Hreply_2.
    change (PydanticOutputParser.parse _ t2)
      with (PydanticOutputParser.parse (suggestions_parser "mistral") t2).
    rewrite Hparse_2. reflexivity. }
  assert (Hrun_3 : feature_3 (start_3 w2) = (inr tt, w3)).
  { unfold driver_letter_prompt in Hp3.
    rewrite feature_3_run, (generate_run (start_3 w2) Hp3). cbv zeta. cbn [fst snd].
    change (generate (calls (start_3 w2)) _)
      with (generate [call_1 p1; call_2 p2] (call_3 p3)).
    rewrite Hreply_3. reflexivity. }
  rewrite main_run. cbv zeta.
  rewrite Hrun_1. cbn [fst snd]. rewrite Hrun_2. cbn [fst snd].
  rewrite Hrun_3. cbn [fst snd].
  unfold w3, w2, w1, start_1, start_2, start_3, printed, performed, initial_world.
  cbn [calls console app]. rewrite <- !app_assoc. reflexivity.
Qed.

End Report.

(** X16: the call of the third feature does not depend on what was answered
    before: one request, fixed by [main] alone, is the third call of every
    run that makes a third call, whatever the library and the host. *)
Theorem main_letter_call_is_fixed :
  exists request,
    forall (L : Library) (H : Host) (third : Request),
      nth_error (calls (snd (main initial_world))) 2 = Some third -> third = request.
Proof.
  destruct (letter_prompt_renders "mistral" "John Doe" "Senior Python Developer"
              "Tech Corp" sample_key_achievements
              "Python, Django, FastAPI, PostgreSQL, Redis, Docker, AWS") as [p Hp].
  exists (call_3 p). intros L H third Hthird.
  destruct (@main_calls L H) as (p1 & p3 & _ & Hp3 & Hcases).
  unfold driver_letter_prompt in Hp3. rewrite Hp in Hp3. injection Hp3 as <-.
  destruct (fst (feature_1 start_1)) as [e1 | job_details].
  - rewrite Hcases in Hthird. discriminate Hthird.
  - destruct Hcases as (p2 & _ & Hcases).
    destruct (fst (feature_2 _ _)) as [e2 | u]; rewrite Hcases in Hthird.
    + discriminate Hthird.
    + injection Hthird as <-. reflexivity.
Qed.

(** * The statements on the doubles *)

(** C1, on a reply of the sample posting. *)
Lemma parse_round_trip_witness :
  parse_reply Doubles.job_details_text = Ok (sample_details 5).
Proof.
  apply (@parse_round_trip Doubles.library "mistral" Doubles.job_details_text
           [ ("job_title", JStr "Senior Python Developer");
             ("required_skills", JList [JStr "Python"; JStr "PostgreSQL"]);
             ("experience_required", JInt 5);
             ("tools", JList [JStr "Docker"]);
             ("soft_skills", JList [JStr "Leadership"]) ]).
  - reflexivity.
  - repeat split.
Defined.

(** C2, on the same reply without [experience_required]. *)
Lemma missing_field_is_rejected_witness :
  exists errors,
    parse_reply Doubles.no_experience_text
      = Raise (ParseValidationError (validation_error errors))
    /\ In ("experience_required", missing) errors.
Proof.
  apply (@missing_field_is_rejected Doubles.library "mistral" Doubles.no_experience_text
           [ ("job_title", JStr "Senior Python Developer");
             ("required_skills", JList [JStr "Python"; JStr "PostgreSQL"]);
             ("tools", JList [JStr "Docker"]);
             ("soft_skills", JList [JStr "Leadership"]) ]).
  - reflexivity.
  - simpl. right. right. left. reflexivity.
  - reflexivity.
Defined.

(** C3 as stated fails.  In the reply the experience is the JSON string
    ["5"]: no integer, and of the wrong type.  The model declares a plain
    [int] and nothing asks for strict mode, so the validator reads the
    numeral, as pydantic does by default, and the reply is parsed with 5
    years of experience. *)
Lemma numeric_string_experience_is_accepted :
  parse_json_markdown (Library := Doubles.library) (Doubles.experience_text (Doubles.q "5"))
    = Some (Doubles.experience_value (JStr "5"))
  /\ (forall z, JStr "5" <> JInt z)
  /\ parse_reply (Doubles.experience_text (Doubles.q "5")) = Ok (sample_details 5).
Proof. repeat split. intros z. discriminate. Qed.

(** C3 (amended), on a reply whose experience is the string ["five"]. *)
Lemma uncoercible_experience_is_rejected_witness :
  exists errors e,
    parse_reply (Doubles.experience_text (Doubles.q "five"))
      = Raise (ParseValidationError (validation_error errors))
    /\ In ("experience_required", e) errors.
Proof.
  apply (@uncoercible_experience_is_rejected Doubles.library "mistral"
           (Doubles.experience_text (Doubles.q "five"))
           [ ("job_title", JStr "Senior Python Developer");
             ("required_skills", JList [JStr "Python"; JStr "PostgreSQL"]);
             ("experience_required", JStr "five");
             ("tools", JList [JStr "Docker"]);
             ("soft_skills", JList [JStr "Leadership"]) ]
           (JStr "five")).
  - reflexivity.
  - reflexivity.
  - reflexivity.
Defined.

(** C4 as stated fails: a reply with [-3] years of experience is parsed, and
    the record holds the negative number. *)
Lemma negative_experience_is_accepted :
  parse_json_markdown (Library := Doubles.library) (Doubles.experience_text "-3")
    = Some (Doubles.experience_value (JInt (-3)))
  /\ parse_reply (Doubles.experience_text "-3") = Ok (sample_details (-3))
  /\ (experience_required (sample_details (-3)) < 0)%Z.
Proof. repeat split. Qed.

(** C4 (amended), on that reply. *)
Lemma accepted_experience_is_validated_value_witness :
  exists d v,
    parse_json_markdown (Library := Doubles.library) (Doubles.experience_text "-3")
      = Some (JDict d)
    /\ dict_get "experience_required" d = Some v
    /\ Pydantic.validate_int (L := Doubles.library) v = inr (-3)%Z
    /\ (forall z, v = JInt z -> (-3)%Z = z).
Proof.
  apply (@accepted_experience_is_validated_value Doubles.library "mistral"
           (Doubles.experience_text "-3") (sample_details (-3))).
  reflexivity.
Defined.

(** C5, with a host that is down: each of the three generators makes its
    call and raises the fault of the host. *)
Lemma service_fault_propagates_witness :
  (let run :=
     JobDescriptionAnalyzer.analyze (L := Doubles.library) (H := Doubles.unreachable)
       (JobDescriptionAnalyzer.__init__ (L := Doubles.library) "mistral")
       sample_job_description initial_world in
   length (calls (snd run)) = 1
   /\ fst run = Raise (GenerationError "connection refused"))
  /\ (let run :=
        ResumeSuggestionGenerator.generate_suggestions (L := Doubles.library)
          (H := Doubles.unreachable)
          (ResumeSuggestionGenerator.__init__ (L := Doubles.library) "mistral")
          (sample_details 5) sample_resume initial_world in
      length (calls (snd run)) = 1
      /\ fst run = Raise (GenerationError "connection refused"))
  /\ (let run :=
        CoverLetterGenerator.generate (H := Doubles.unreachable)
          (CoverLetterGenerator.__init__ "mistral")
          "John Doe" "Senior Python Developer" "Tech Corp" sample_key_achievements
          "Python, Django" initial_world in
      length (calls (snd run)) = 1
      /\ fst run = Raise (GenerationError "connection refused")).
Proof.
  destruct (@service_fault_propagates Doubles.library Doubles.unreachable "mistral"
              initial_world) as (Hanalyze & Hsuggest & Hletter).
  cbv zeta. split; [|split].
  - destruct (Hanalyze sample_job_description) as (request & Hcall & Hfault).
    split.
    + unfold made_call in Hcall. rewrite Hcall. reflexivity.
    + exact (Hfault "connection refused" eq_refl).
  - destruct (Hsuggest (sample_details 5) sample_resume) as (request & Hcall & Hfault).
    split.
    + unfold made_call in Hcall. rewrite Hcall. reflexivity.
    + exact (Hfault "connection refused" eq_refl).
  - destruct (Hletter "John Doe" "Senior Python Developer" "Tech Corp"
                sample_key_achievements "Python, Django")
      as (request & Hcall & Hfault).
    split.
    + unfold made_call in Hcall. rewrite Hcall. reflexivity.
    + exact (Hfault "connection refused" eq_refl).
Defined.

(** C7, with a host that answers: the letter is the answer. *)
Lemma cover_letter_is_passed_through_witness :
  exists request,
    made_call initial_world
      (snd (CoverLetterGenerator.generate (H := Doubles.scripted [inr "Dear hiring team,"])
              (CoverLetterGenerator.__init__ "mistral")
              "John Doe" "Senior Python Developer" "Tech Corp" sample_key_achievements
              "Python, Django" initial_world))
      request
    /\ fst (CoverLetterGenerator.generate (H := Doubles.scripted [inr "Dear hiring team,"])
              (CoverLetterGenerator.__init__ "mistral")
              "John Doe" "Senior Python Developer" "Tech Corp" sample_key_achievements
              "Python, Django" initial_world)
       = match Doubles.scripted [inr "Dear hiring team,"] (calls initial_world) request with
         | inl msg => Raise (GenerationError msg)
         | inr text => Ok text
         end.
Proof.
  apply (@cover_letter_is_passed_through (Doubles.scripted [inr "Dear hiring team,"])
           "mistral" "John Doe" "Senior Python Developer" "Tech Corp"
           sample_key_achievements "Python, Django" initial_world).
  - discriminate.
  - discriminate.
Defined.

(** * The program on its doubles *)

(** The scan of a template keeps literal text and field names apart, reads
    doubled braces as braces and refuses a lone one. *)
Example scan_fields :
  Formatter.parse "- Title: {job_details} ({{years}})"
    = Ok [ Formatter.Literal "- Title: "; Formatter.Field "job_details";
           Formatter.Literal " ({years})" ].
Proof. reflexivity. Qed.

Example scan_lone_brace :
  Formatter.parse "50% } done"
    = Raise (ValueError "Single '}' encountered in format string").
Proof. reflexivity. Qed.

Example format_unbound :
  Formatter.format "{tools} and {skills}" [("tools", PyStr "Docker")]
    = Raise (KeyError "skills").
Proof. reflexivity. Qed.

Example format_years :
  Formatter.format "- Experience: {experience_required} years"
      [("experience_required", PyInt 5)]
    = Ok "- Experience: 5 years".
Proof. reflexivity. Qed.

(** With the host down, [main] prints the headings of the first feature and
    the error, after one call. *)
Example main_host_down :
  let w := snd (main (L := Doubles.library) (H := Doubles.unreachable) initial_world) in
  length (calls w) = 1
  /\ console w
     = (opening ++ heading "FEATURE 1: JOB DESCRIPTION ANALYZER"
          ++ ["❌ Error in Job Description Analyzer: connection refused"])%list.
Proof. split; reflexivity. Qed.

(** With a first reply that lacks a field, [main] stops after the first
    feature as well. *)
Example main_reply_rejected :
  let host := Doubles.scripted [inr Doubles.no_experience_text] in
  let w := snd (main (L := Doubles.library) (H := host) initial_world) in
  length (calls w) = 1
  /\ last (console w) EmptyString
     = "❌ Error in Job Description Analyzer: Failed to parse the completion".
Proof. split; reflexivity. Qed.

(** With three good replies, [main] makes three calls, at the three
    temperatures, and ends on the closing lines. *)
Example main_all_good :
  let host :=
    Doubles.scripted
      [inr Doubles.job_details_text; inr Doubles.suggestions_text; inr "Dear hiring team,"] in
  let w := snd (main (L := Doubles.library) (H := host) initial_world) in
  map request_temperature (calls w) = [0.3%Q; 0.5%Q; 0.7%Q]
  /\ skipn (length (console w) - 3) (console w) = closing
  /\ In "Dear hiring team," (console w)
  /\ In "   Experience Required: 5 years" (console w)
  /\ In "      • Kubernetes" (console w).
Proof. vm_compute. repeat split; tauto. Qed.

(** With a second reply that is no JSON, the third feature is not run. *)
Example main_second_fails :
  let host := Doubles.scripted [inr Doubles.job_details_text; inr "Sorry, I cannot."] in
  let w := snd (main (L := Doubles.library) (H := host) initial_world) in
  map request_temperature (calls w) = [0.3%Q; 0.5%Q]
  /\ last (console w) EmptyString
     = "❌ Error in Resume Suggestion Generator: Invalid json output".
Proof. split; reflexivity. Qed.

(** * The further statements on the doubles *)

(** X1, on the sample suggestions. *)
Lemma suggestions_round_trip_witness :
  PydanticOutputParser.parse (L := Doubles.library)
      (suggestions_parser (L := Doubles.library) "mistral") Doubles.suggestions_text
    = Ok (mkResumeSuggestions ["PostgreSQL"; "Kubernetes"] ["Quantify the API work"] "70%").
Proof.
  apply (@suggestions_round_trip Doubles.library "mistral" Doubles.suggestions_text
           [ ("missing_skills", JList [JStr "PostgreSQL"; JStr "Kubernetes"]);
             ("improvement_points", JList [JStr "Quantify the API work"]);
             ("overall_fit_summary", JStr "70%") ]).
  - reflexivity.
  - repeat split.
Defined.

(** X2, on the sample suggestions without their summary. *)
Lemma missing_suggestion_field_is_rejected_witness :
  exists errors,
    PydanticOutputParser.parse (L := Replies.library)
        (suggestions_parser (L := Replies.library) "mistral") Replies.no_summary_text
      = Raise (ParseValidationError (validation_error errors))
    /\ In ("overall_fit_summary", missing) errors.
Proof.
  apply (@missing_suggestion_field_is_rejected Replies.library "mistral"
           Replies.no_summary_text
           [ ("missing_skills", JList [JStr "PostgreSQL"; JStr "Kubernetes"]);
             ("improvement_points", JList [JStr "Quantify the API work"]) ]).
  - reflexivity.
  - simpl. tauto.
  - reflexivity.
Defined.

(** X3, on a job reply whose skills are the string ["Python, PostgreSQL"]. *)
Lemma job_list_field_must_be_array_witness :
  exists errors,
    PydanticOutputParser.parse (L := Replies.library)
        (job_details_parser (L := Replies.library) "mistral") Replies.joined_skills_text
      = Raise (ParseValidationError (validation_error errors))
    /\ In ("required_skills", list_type) errors.
Proof.
  apply (@job_list_field_must_be_array Replies.library "mistral" Replies.joined_skills_text
           [ ("job_title", JStr "Senior Python Developer");
             ("required_skills", JStr "Python, PostgreSQL");
             ("experience_required", JInt 5);
             ("tools", JList [JStr "Docker"]);
             ("soft_skills", JList [JStr "Leadership"]) ]
           "required_skills" (JStr "Python, PostgreSQL")).
  - reflexivity.
  - simpl. tauto.
  - reflexivity.
  - simpl. tauto.
Defined.

(** X4, on suggestions whose missing skills are one string. *)
Lemma suggestion_list_field_must_be_array_witness :
  exists errors,
    PydanticOutputParser.parse (L := Replies.library)
        (suggestions_parser (L := Replies.library) "mistral") Replies.joined_missing_text
      = Raise (ParseValidationError (validation_error errors))
    /\ In ("missing_skills", list_type) errors.
Proof.
  apply (@suggestion_list_field_must_be_array Replies.library "mistral"
           Replies.joined_missing_text
           [ ("missing_skills", JStr "PostgreSQL, Kubernetes");
             ("improvement_points", JList [JStr "Quantify the API work"]);
             ("overall_fit_summary", JStr "70%") ]
           "missing_skills" (JStr "PostgreSQL, Kubernetes")).
  - reflexivity.
  - simpl. tauto.
  - reflexivity.
  - simpl. tauto.
Defined.

(** X5, on a reply that is a JSON array. *)
Lemma reply_must_be_object_witness :
  (exists cause,
     PydanticOutputParser.parse (L := Replies.library)
         (job_details_parser (L := Replies.library) "mistral") Replies.array_text
       = Raise (ParseValidationError cause))
  /\ (exists cause,
        PydanticOutputParser.parse (L := Replies.library)
            (suggestions_parser (L := Replies.library) "mistral") Replies.array_text
          = Raise (ParseValidationError cause)).
Proof.
  apply (@reply_must_be_object Replies.library "mistral" Replies.array_text).
  vm_compute. tauto.
Defined.

(** X6, on the sample reply and the same reply with its keys shuffled and a
    key more. *)
Lemma parse_reads_declared_fields_only_witness :
  PydanticOutputParser.parse (L := Replies.library)
      (job_details_parser (L := Replies.library) "mistral") Doubles.job_details_text
  = PydanticOutputParser.parse (L := Replies.library)
      (job_details_parser (L := Replies.library) "mistral") Replies.shuffled_text.
Proof.
  apply (@parse_reads_declared_fields_only Replies.library "mistral"
           Doubles.job_details_text Replies.shuffled_text
           [ ("job_title", JStr "Senior Python Developer");
             ("required_skills", JList [JStr "Python"; JStr "PostgreSQL"]);
             ("experience_required", JInt 5);
             ("tools", JList [JStr "Docker"]);
             ("soft_skills", JList [JStr "Leadership"]) ]
           [ ("soft_skills", JList [JStr "Leadership"]);
             ("company", JStr "Tech Corp");
             ("experience_required", JInt 5);
             ("tools", JList [JStr "Docker"]);
             ("job_title", JStr "Senior Python Developer");
             ("required_skills", JList [JStr "Python"; JStr "PostgreSQL"]) ]).
  - reflexivity.
  - reflexivity.
  - intros name Hname. simpl in Hname.
    destruct Hname as [<- | [<- | [<- | [<- | [<- | []]]]]]; reflexivity.
Defined.

(** X7, with a host that answers the sample reply. *)
Lemma analyze_returns_parsed_reply_witness :
  fst (JobDescriptionAnalyzer.analyze (L := Doubles.library)
         (H := Doubles.scripted [inr Doubles.job_details_text])
         (JobDescriptionAnalyzer.__init__ (L := Doubles.library) "mistral")
         sample_job_description initial_world)
  = Ok (sample_details 5).
Proof.
  refine (@analyze_returns_parsed_reply Doubles.library
            (Doubles.scripted [inr Doubles.job_details_text]) "mistral"
            sample_job_description Doubles.job_details_text initial_world _ _ _).
  - vm_compute. reflexivity.
  - reflexivity.
Defined.

(** X8, with a host that answers suggestions without a summary. *)
Lemma generate_suggestions_returns_parsed_reply_witness :
  fst (ResumeSuggestionGenerator.generate_suggestions (L := Replies.library)
         (H := Doubles.scripted [inr Replies.no_summary_text])
         (ResumeSuggestionGenerator.__init__ (L := Replies.library) "mistral")
         (sample_details 5) sample_resume initial_world)
  = Raise (ParseValidationError (validation_error [("overall_fit_summary", missing)])).
Proof.
  refine (@generate_suggestions_returns_parsed_reply Replies.library
            (Doubles.scripted [inr Replies.no_summary_text]) "mistral"
            (sample_details 5) sample_resume Replies.no_summary_text initial_world _ _ _).
  - vm_compute. reflexivity.
  - reflexivity.
Defined.

(** X15, with a host that answers the sample reply and then faults. *)
Lemma main_feeds_details_to_suggestions_witness :
  exists p,
    suggestion_prompt (L := Doubles.library) "mistral" (sample_details 5) sample_resume
      = Ok p
    /\ nth_error
         (calls (snd (main (L := Doubles.library)
                        (H := Doubles.scripted [inr Doubles.job_details_text])
                        initial_world))) 1
       = Some (call_2 p).
Proof.
  apply (@main_feeds_details_to_suggestions Doubles.library
           (Doubles.scripted [inr Doubles.job_details_text]) (sample_details 5)).
  vm_compute. reflexivity.
Defined.

(** X18, with a host that answers the three calls. *)
Lemma main_shows_results_witness :
  exists p1 p2 p3,
    main (L := Doubles.library)
      (H := Doubles.scripted
              [inr Doubles.job_details_text; inr Doubles.suggestions_text;
               inr "Dear hiring team,"])
      initial_world
    = (Ok tt,
       mkWorld [call_1 p1; call_2 p2; call_3 p3]
         (opening
          ++ heading "FEATURE 1: JOB DESCRIPTION ANALYZER"
          ++ details_lines (sample_details 5)
          ++ heading "FEATURE 2: RESUME IMPROVEMENT SUGGESTIONS"
          ++ suggestion_lines
               (mkResumeSuggestions ["PostgreSQL"; "Kubernetes"]
                  ["Quantify the API work"] "70%")
          ++ heading "FEATURE 3: COVER LETTER GENERATOR"
          ++ letter_lines "Dear hiring team,"
          ++ closing)%list).
Proof.
  do 3 eexists.
  eapply (@main_shows_results Doubles.library
            (Doubles.scripted
               [inr Doubles.job_details_text; inr Doubles.suggestions_text;
                inr "Dear hiring team,"])
            _ _ _ Doubles.job_details_text Doubles.suggestions_text "Dear hiring team,").
  - vm_compute. reflexivity.
  - reflexivity.
  - reflexivity.
  - vm_compute. reflexivity.
  - reflexivity.
  - reflexivity.
  - vm_compute. reflexivity.
  - reflexivity.
Defined.

(** X19, with a host that answers the sample reply and then faults. *)
Lemma main_keeps_details_witness :
  exists rest,
    console (snd (main (L := Doubles.library)
                    (H := Doubles.scripted [inr Doubles.job_details_text])
                    initial_world))
    = (opening ++ heading "FEATURE 1: JOB DESCRIPTION ANALYZER"
         ++ details_lines (sample_details 5) ++ rest)%list.
Proof.
  apply (@main_keeps_details Doubles.library
           (Doubles.scripted [inr Doubles.job_details_text]) (sample_details 5)).
  vm_compute. reflexivity.
Defined.

(** Every bad item of a list field has its own line, with its index; a good
    item before or after does not hide it. *)
Example list_items_line_by_line :
  Pydantic.required_list
      [("tools", JList [JStr "Docker"; JInt 3; JStr "Git"; JNull])] "tools"
    = inl [("tools.1", string_type); ("tools.3", string_type)].
Proof. reflexivity. Qed.
